(** * MISUMI extrusion part numbers: codec and Voron Trident frame classifier

    A shallow embedding of [extrusion_decoder/decoder.py],
    [extrusion_decoder/makers/misumi.py], [extrusion_decoder/printers/base.py],
    [extrusion_decoder/printers/trident.py] and the legacy classifier of
    [extrusion_decoder/voron.py], followed by the properties of the
    specification that were checked against them.

    Conventions of the embedding.
    - A Python [str] is a [string]; each [ascii] stands for one character
      whose code point is below 256.
    - A Python [int] is a [Z].
    - [None] is [None]; a value of type [T | None] is an [option T].
    - A call that may raise [ValueError] returns an [option]; the [try]
      blocks of the source become matches on that option.  No other
      operation of the embedded functions can raise on arguments of the
      declared types, so totality of a definition below is absence of an
      uncaught exception. *)

From Stdlib Require Import ZArith Ascii DecimalString DecimalPos Lia.
From stdpp Require Import gmap strings list.

Local Open Scope Z_scope.

(** ** Python built-ins used by the source *)

Module Py.

Definition code (c : ascii) : N := N_of_ascii c.

(** [\d] of the [re] module and the digits accepted by [int()], for
    characters below 256: exactly [0]..[9]. *)
Definition is_digit (c : ascii) : bool :=
  ((48 <=? code c) && (code c <=? 57))%N.

(** [[A-Z]] of the [re] module. *)
Definition is_upper (c : ascii) : bool :=
  ((65 <=? code c) && (code c <=? 90))%N.

(** White space skipped by [int()] around the number: tab, line feed,
    vertical tab, form feed, carriage return, space, and (in a string that
    is not pure ASCII) next-line U+0085 and no-break space U+00A0. *)
Definition is_space (c : ascii) : bool :=
  (((9 <=? code c) && (code c <=? 13)) || (code c =? 32)
   || (code c =? 133) || (code c =? 160))%N.

Definition digit_val (c : ascii) : Z := Z.of_N (code c - 48).

Fixpoint all_chars (p : ascii -> bool) (s : string) : bool :=
  match s with
  | EmptyString => true
  | String c s' => p c && all_chars p s'
  end.

Fixpoint has_char (c : ascii) (s : string) : bool :=
  match s with
  | EmptyString => false
  | String d s' => Ascii.eqb d c || has_char c s'
  end.

Definition is_empty (s : string) : bool :=
  match s with EmptyString => true | String _ _ => false end.

(** [len(s)] *)
Definition len (s : string) : Z := Z.of_nat (String.length s).

(** [s[:n]] and [s[n:]] for a literal [n >= 0]; slices never raise. *)
Fixpoint take (n : nat) (s : string) : string :=
  match n, s with
  | S n', String c s' => String c (take n' s')
  | _, _ => EmptyString
  end.

Fixpoint drop (n : nat) (s : string) : string :=
  match n, s with
  | S n', String _ s' => drop n' s'
  | _, _ => s
  end.

(** [s.startswith(p)] *)
Fixpoint startswith (p s : string) : bool :=
  match p, s with
  | EmptyString, _ => true
  | String a p', String b s' => Ascii.eqb a b && startswith p' s'
  | String _ _, EmptyString => false
  end.

(** [x in xs] for a list of strings. *)
Definition str_in (x : string) (xs : list string) : bool :=
  existsb (String.eqb x) xs.

(** [s.split(sep)] for a one-character separator: always at least one
    segment, and empty segments are kept. *)
Fixpoint split (sep : ascii) (s : string) : list string :=
  match s with
  | EmptyString => [EmptyString]
  | String c s' =>
      if Ascii.eqb c sep then EmptyString :: split sep s'
      else match split sep s' with
           | seg :: segs => String c seg :: segs
           | [] => [String c EmptyString]
           end
  end.

(** [sep.join(parts)] *)
Fixpoint join (sep : string) (parts : list string) : string :=
  match parts with
  | [] => EmptyString
  | [p] => p
  | p :: ps => p +:+ sep +:+ join sep ps
  end.

(** [str(n)] for an [int]: decimal digits, a leading [-] for a negative
    number, no leading zero.  (The interpreter's optional limit on the
    number of digits is not modelled.) *)
Definition str (n : Z) : string := NilZero.string_of_int (Z.to_int n).

(** The digits of [int(s)] after the first one: digits, a single
    underscore only between two digits, then white space up to the end. *)
Fixpoint int_digits (acc : Z) (s : string) : option Z :=
  match s with
  | EmptyString => Some acc
  | String c s' =>
      if is_digit c then int_digits (acc * 10 + digit_val c) s'
      else if Ascii.eqb c "_" then
        match s' with
        | String d s'' =>
            if is_digit d then int_digits (acc * 10 + digit_val d) s''
            else None
        | EmptyString => None
        end
      else if all_chars is_space s then Some acc
      else None
  end.

Fixpoint lstrip (s : string) : string :=
  match s with
  | String c s' => if is_space c then lstrip s' else s
  | EmptyString => EmptyString
  end.

Definition int_unsigned (s : string) : option Z :=
  match s with
  | String c s' => if is_digit c then int_digits (digit_val c) s' else None
  | EmptyString => None
  end.

(** [int(s)] for a string in base ten; [None] stands for [ValueError].
    (The interpreter's optional limit on the number of digits is not
    modelled; it would only turn more inputs into [ValueError].) *)
Definition int (s : string) : option Z :=
  match lstrip s with
  | String c s' =>
      if Ascii.eqb c "-" then Z.opp <$> int_unsigned s'
      else if Ascii.eqb c "+" then int_unsigned s'
      else int_unsigned (String c s')
  | EmptyString => None
  end.

End Py.

(** ** [decoder.py]: the alteration code table *)

(** The entries of the dictionary literal [ALTERATION_CODES], in source
    order. *)
Definition ALTERATION_CODE_ENTRIES : list (string * string) :=
  [
    (* End Tapping *)
    ("LTP", "Left End Tapping (Center Hole)");
    ("RTP", "Right End Tapping (Center Hole)");
    ("TPM", "End Tapping (Center Hole)");
    ("TPW", "End Tapping (Center Hole, Both Sides, Heli-Coil Insert)");
    ("LHP", "Left End Tapping (Center Hole)");
    ("RHP", "Right End Tapping (Center Hole)");
    ("HPW", "End Tapping (Center Hole, Heli-Coil Insert)");
    ("LSP", "Left End Tapping (4 Side Holes)");
    ("RSP", "Right End Tapping (4 Side Holes)");
    ("SPW", "End Tapping (4 Side Holes)");
    (* Sitting Method Change *)
    ("SC", "High Precision Cut (L=0.2 tolerance)");
    ("L_T45", "Left 45-Degree Cut");
    ("R_T45", "Right 45-Degree Cut");
    (* Drill Wrench Hole - Fastening Location Wrench Access Hole Alterations *)
    (* 1 Slot (Single Line) *)
    ("LCH", "Left Wrench Access Hole (1 Slot, Horizontal)");
    ("LCV", "Left Wrench Access Hole (1 Slot, Vertical)");
    ("LCP", "Left Wrench Access Hole (1 Slot, Crisscross)");
    ("RCH", "Right Wrench Access Hole (1 Slot, Horizontal)");
    ("RCV", "Right Wrench Access Hole (1 Slot, Vertical)");
    ("RCP", "Right Wrench Access Hole (1 Slot, Crisscross)");
    (* 2 Slots (Two Lines) *)
    ("LWH", "Left Wrench Access Hole (2 Slots, Horizontal)");
    ("LWV", "Left Wrench Access Hole (2 Slots, Vertical)");
    ("LWP", "Left Wrench Access Hole (2 Slots, Crisscross)");
    ("RWH", "Right Wrench Access Hole (2 Slots, Horizontal)");
    ("RWV", "Right Wrench Access Hole (2 Slots, Vertical)");
    ("RWP", "Right Wrench Access Hole (2 Slots, Crisscross)");
    (* 3 Slots (Three Lines) *)
    ("LEH", "Left Wrench Access Hole (3 Slots, Horizontal)");
    ("LEV", "Left Wrench Access Hole (3 Slots, Vertical)");
    ("LEP", "Left Wrench Access Hole (3 Slots, Crisscross)");
    ("REH", "Right Wrench Access Hole (3 Slots, Horizontal)");
    ("REV", "Right Wrench Access Hole (3 Slots, Vertical)");
    ("REP", "Right Wrench Access Hole (3 Slots, Crisscross)");
    (* Other Wrench Hole Alterations *)
    ("RWIP", "Right Wrench Hole in Fixed Position");
    (* Wrench Hole Diameter Specifications (for Series 6) *)
    ("X5", "Wrench Hole Diameter Specification (5mm)");
    ("X8", "Wrench Hole Diameter Specification (8mm)");
    ("FL", "Extrusion End Caps Hole Position Change (Left, for 3mm cap)");
    ("FR", "Extrusion End Caps Hole Position Change (Right, for 3mm cap)");
    (* Wrench Hole in Specified Position - Multiple positions (up to 5 locations) *)
    ("AH", "Wrench Hole in Specified Position (Horizontal, A position)");
    ("BH", "Wrench Hole in Specified Position (Horizontal, B position)");
    ("CH", "Wrench Hole in Specified Position (Horizontal, C position)");
    ("DH", "Wrench Hole in Specified Position (Horizontal, D position)");
    ("EH", "Wrench Hole in Specified Position (Horizontal, E position)");
    ("AV", "Wrench Hole in Specified Position (Vertical, A position)");
    ("BV", "Wrench Hole in Specified Position (Vertical, B position)");
    ("CV", "Wrench Hole in Specified Position (Vertical, C position)");
    ("DV", "Wrench Hole in Specified Position (Vertical, D position)");
    ("EV", "Wrench Hole in Specified Position (Vertical, E position)");
    ("AP", "Wrench Hole in Specified Position (Crisscross, A position)");
    ("BP", "Wrench Hole in Specified Position (Crisscross, B position)");
    ("CP", "Wrench Hole in Specified Position (Crisscross, C position)");
    ("DP", "Wrench Hole in Specified Position (Crisscross, D position)");
    ("EP", "Wrench Hole in Specified Position (Crisscross, E position)");
    (* Counterboring *)
    ("Z5", "Counterbore in Specified Position (Z5, d=5.5mm)");
    ("Z6", "Counterbore in Specified Position (Z6, d=6.5mm)");
    ("Z8", "Counterbore in Specified Position (Z8, d=9mm)");
    ("Z12", "Counterbore in Specified Position (Z12, d=13mm)");
    (* Counterbore positions (Top to Bottom - Vertical) *)
    ("XA", "Counterbore (Top to Bottom, Vertical, A position)");
    ("XB", "Counterbore (Top to Bottom, Vertical, B position)");
    ("XC", "Counterbore (Top to Bottom, Vertical, C position)");
    ("XD", "Counterbore (Top to Bottom, Vertical, D position)");
    ("XE", "Counterbore (Top to Bottom, Vertical, E position)");
    (* Counterbore positions (Right to Left - Horizontal) *)
    ("YA", "Counterbore (Right to Left, Horizontal, A position)");
    ("YB", "Counterbore (Right to Left, Horizontal, B position)");
    ("YC", "Counterbore (Right to Left, Horizontal, C position)");
    ("YD", "Counterbore (Right to Left, Horizontal, D position)");
    ("YE", "Counterbore (Right to Left, Horizontal, E position)");
    (* Blind Joints Dedicated Holes *)
    (* D Type Hole Alterations *)
    ("LDH", 
       "Left D Hole (Horizontal on Left End, Pre-Assembly Insertion Double Joint)");
    ("LDV", 
       "Left D Hole (Vertical on Left End, Pre-Assembly Insertion Double Joint)");
    ("RDH", 
       "Right D Hole (Horizontal on Right End, Pre-Assembly Insertion Double Joint)");
    ("RDV", 
       "Right D Hole (Vertical on Right End, Pre-Assembly Insertion Double Joint)");
    (* S Type Hole Alterations *)
    ("LSH", 
       "Left S Hole (Horizontal on Left End, Post-Assembly Insertion Double Joint, Center Joint)");
    ("LSV", 
       "Left S Hole (Vertical on Left End, Post-Assembly Insertion Double Joint, Center Joint)");
    ("RSH", 
       "Right S Hole (Horizontal on Right End, Post-Assembly Insertion Double Joint, Center Joint)");
    ("RSV", 
       "Right S Hole (Vertical on Right End, Post-Assembly Insertion Double Joint, Center Joint)");
    (* M Type Hole Alterations *)
    ("LMH", 
       "Left M Hole (Post-Assembly Insertion Double Joint, Post Connection)");
    ("RMH", 
       "Right M Hole (Horizontal on Right End, Post-Assembly Insertion Double Joint, Post Connection)");
    (* L Type Hole Alterations *)
    ("JLP", "L Hole (Crisscross on Top, Parallel Joint)");
    ("KLP", "L Hole (Crisscross on Bottom, Parallel Joint)");
    (* Special Extrusions End Plates Alterations *)
    ("LTS", "Left End Tapping (GFS/HFSR Series)");
    ("RTS", "Right End Tapping (GFS/HFSR Series)");
    ("TSW", "End Tapping (GFS/HFSR Series)");
    (* Chamfering *)
    ("CW", "End Face C Chamfering");
    (* Labeling *)
    ("ZZZ", "Labeling (Serial Number)");
    ("LL", "Labeling (Unit Number)")
  ].

Definition ALTERATION_CODES : gmap string string :=
  list_to_map ALTERATION_CODE_ENTRIES.

(** ** [decoder.py]: formatting of size and length *)

(** The multiplication sign U+00D7 of the size strings. *)
Definition times_sign : string := String (ascii_of_N 215) EmptyString.

Definition parse_size (size_str : string) : string :=
  if Py.len size_str =? 4 then
    let dim := Py.take 2 size_str in
    dim +:+ "mm " +:+ times_sign +:+ " " +:+ dim +:+ "mm"
  else if Py.len size_str =? 6 then
    let dim1 := Py.take 2 size_str in
    let dim2 := Py.take 2 (Py.drop 2 size_str) in
    let dim3 := Py.take 2 (Py.drop 4 size_str) in
    dim1 +:+ "mm " +:+ times_sign +:+ " " +:+ dim2 +:+ "mm "
         +:+ times_sign +:+ " " +:+ dim3 +:+ "mm"
  else size_str +:+ " (custom size)".

Definition parse_length (length_str : string) : string :=
  match Py.int length_str with
  | Some length => Py.str length +:+ "mm"
  | None => length_str
  end.

(** ** [decoder.py]: alteration tokens *)

(** [re.match(r"^([A-Z]+)(\d+)$", code)], returning the two groups.
    The two character classes are disjoint, so the greedy match is the
    only one: group 1 is the longest prefix of upper-case letters and
    group 2 is everything after it.  In [re], [$] matches at the end of the
    string and also just before a line feed that ends the string, so one
    final line feed is left out of group 2. *)
Fixpoint span_upper (s : string) : string * string :=
  match s with
  | String c s' =>
      if Py.is_upper c then
        let '(letters, rest) := span_upper s' in (String c letters, rest)
      else (EmptyString, s)
  | EmptyString => (EmptyString, EmptyString)
  end.

Definition line_feed : ascii := "010".

Fixpoint chomp_line_feed (s : string) : string :=
  match s with
  | EmptyString => EmptyString
  | String c EmptyString => if Ascii.eqb c line_feed then EmptyString else s
  | String c s' => String c (chomp_line_feed s')
  end.

Definition match_letters_digits (code : string) : option (string * string) :=
  let '(letters, digits) := span_upper (chomp_line_feed code) in
  if Py.is_empty letters || Py.is_empty digits then None
  else if Py.all_chars Py.is_digit digits then Some (letters, digits)
  else None.

(** The base codes whose numeric suffix is a position along the
    extrusion. *)
Definition POSITION_CODES : list string :=
  ["AV"; "BV"; "CV"; "DV"; "EV";
   "AH"; "BH"; "CH"; "DH"; "EH";
   "AP"; "BP"; "CP"; "DP"; "EP";
   "XA"; "XB"; "XC"; "XD"; "XE";
   "YA"; "YB"; "YC"; "YD"; "YE"].

(** The branch of [parse_alteration_code] taken once the pattern has
    matched. *)
Definition parse_suffixed (base_code numeric_value : string)
  : string * option string :=
  match ALTERATION_CODES !! base_code with
  | Some description =>
      if Py.str_in base_code POSITION_CODES then
        (description, Some (numeric_value +:+ "mm from left end"))
      else if Py.str_in base_code ["JLP"; "KLP"] then
        (description, Some ("Hole pitch: " +:+ numeric_value +:+ "mm"))
      else if String.eqb base_code "ZZZ" then
        (description, Some ("Serial: " +:+ numeric_value))
      else if String.eqb base_code "LL" then
        (description, Some ("Unit: " +:+ numeric_value))
      else (description, Some numeric_value)
  | None => ("Unknown alteration code: " +:+ base_code, Some numeric_value)
  end.

Definition parse_unmatched (code : string) : string * option string :=
  match match_letters_digits code with
  | Some (base_code, numeric_value) => parse_suffixed base_code numeric_value
  | None => ("Unknown alteration code: " +:+ code, None)
  end.

Definition parse_alteration_code (code : string) : string * option string :=
  match ALTERATION_CODES !! code with
  | Some description => (description, None)
  | None =>
      (* the second look-up, for codes with an underscore *)
      if Py.has_char "_" code then
        match ALTERATION_CODES !! code with
        | Some description => (description, None)
        | None => parse_unmatched code
        end
      else parse_unmatched code
  end.

(** ** [decoder.py]: decoding a part number *)

Module Decoded.

(** The dictionary of a successful decode, one field per key. *)
Record part : Type := Build {
  part_number : string;
  series : string;
  size : string;
  size_raw : string;
  length : string;
  length_raw : string;
  alterations : list string;
  alteration_descriptions : list string;
}.

(** The dictionary returned by [decode_misumi_name]: either the single
    key [error] or the eight keys of [part]. *)
Inductive t : Type :=
| Error (error : string)
| Part (fields : part).

(** ["error" in decoded] *)
Definition has_error (d : t) : bool :=
  match d with Error _ => true | Part _ => false end.

End Decoded.

(** One round of the loop that builds [alteration_descriptions]. *)
Definition describe_alteration (alt_code : string) : string :=
  match parse_alteration_code alt_code with
  | (desc, Some value) =>
      if Py.is_empty value then desc else desc +:+ " (" +:+ value +:+ ")"
  | (desc, None) => desc
  end.

Definition decode_misumi_name (part_number : string) : Decoded.t :=
  match Py.split "-" part_number with
  | series :: size :: length :: alterations =>
      Decoded.Part
        {| Decoded.part_number := part_number;
           Decoded.series := series;
           Decoded.size := parse_size size;
           Decoded.size_raw := size;
           Decoded.length := parse_length length;
           Decoded.length_raw := length;
           Decoded.alterations := alterations;
           Decoded.alteration_descriptions :=
             map describe_alteration alterations |}
  | _ =>
      Decoded.Error
        ("Invalid part number format. Expected at least 3 parts separated by hyphens, got: "
           +:+ part_number)
  end.

(** ** [makers/misumi.py]: encoding a part number *)

Definition encode_part_number (series size : string) (length : Z)
    (alterations : option (list string)) : string :=
  let parts := [series; size; Py.str length] in
  let parts :=
    match alterations with
    | Some ((_ :: _) as alts) => parts ++ alts
    | _ => parts
    end in
  Py.join "-" parts.

(** ** [printers/base.py]: build volumes and extrusion specifications *)

Module BuildVolume.

Record t : Type := Build { x : Z; y : Z; z : Z; name : string }.

(** [BuildVolume.__init__]: [name or f"{x}x{y}x{z}"]. *)
Definition init (x y z : Z) (name : option string) : t :=
  let default := Py.str x +:+ "x" +:+ Py.str y +:+ "x" +:+ Py.str z in
  Build x y z
    (match name with
     | Some n => if Py.is_empty n then default else n
     | None => default
     end).

End BuildVolume.

Module ExtrusionSpec.

Record t : Type := Build {
  letter : string;
  length : Z;
  quantity : Z;
  alterations : list string;
  description : option string;
}.

(** [ExtrusionSpec.__init__]: [alterations or []]. *)
Definition init (letter : string) (length quantity : Z)
    (alterations : option (list string)) (description : option string) : t :=
  Build letter length quantity (default [] alterations) description.

End ExtrusionSpec.

(** ** [printers/trident.py]: the Voron Trident frame *)

Module TridentPrinter.

Definition get_supported_build_volumes : list BuildVolume.t :=
  [BuildVolume.init 250 250 250 (Some "250x250x250");
   BuildVolume.init 300 300 250 (Some "300x300x250");
   BuildVolume.init 350 350 250 (Some "350x350x250")].

Definition get_extrusion_specs (build_volume : BuildVolume.t)
  : list ExtrusionSpec.t :=
  let build_size_x := BuildVolume.x build_volume in
  let a_length := build_size_x + 120 in
  let c_length := build_size_x + 120 in
  let f_length := build_size_x + 120 in
  let d_length := build_size_x - 10 in
  let e_length := build_size_x + 80 in
  let g_length := build_size_x - 18 in
  let b_length := 500 in
  let h_length := 330 in
  [ExtrusionSpec.init "A" a_length 9 (Some ["TPW"])
     (Some "Horizontal frame extrusions (3 bottom, 4 top, 2 middle sides)");
   ExtrusionSpec.init "B" b_length 4 (Some ["LCP"; "RCP"; "AV360"])
     (Some "Vertical upright extrusions (span full height, 4 corners)");
   ExtrusionSpec.init "C" c_length 1
     (Some ["AV" +:+ Py.str (c_length `div` 2); "TPW"])
     (Some "Bottom rear horizontal extrusion (identical to A but with wrench-access hole at midpoint, tapped holes at ends)");
   ExtrusionSpec.init "D" d_length 1 (Some [])
     (Some "Rear Brace of print-head gantry support");
   ExtrusionSpec.init "E" e_length 1 (Some [])
     (Some "Gantry X-axis extrusion (used in X axis assembly, carries print head)");
   ExtrusionSpec.init "F" f_length 1 (Some ["AH235"; "TPW"])
     (Some "Print bed support extrusion (G mounts to its midpoint)");
   ExtrusionSpec.init "G" g_length 1 (Some ["AH235"])
     (Some "Print bed support extrusion (mounts to F midpoint; bed constrained by rails on H front and front B extrusions)");
   ExtrusionSpec.init "H" h_length 1 (Some [])
     (Some "Vertical center extrusion (mounts to C center, D mounts to top)")].

(** The local [build_size]: a label for one of the three supported
    widths, [None] otherwise.  A [BuildVolume] object is always truthy, so
    [if build_volume:] only tests for [None]. *)
Definition resolve_build_size (build_volume : option BuildVolume.t)
  : option string :=
  match build_volume with
  | Some bv =>
      if BuildVolume.x bv =? 250 then Some "250mm"
      else if BuildVolume.x bv =? 300 then Some "300mm"
      else if BuildVolume.x bv =? 350 then Some "350mm"
      else None
  | None => None
  end.

(** [build_size == label] *)
Definition size_is (build_size : option string) (label : string) : bool :=
  match build_size with
  | Some s => String.eqb s label
  | None => false
  end.

(** The conditional expression bound to [expected_c], [expected_f],
    [expected_a], [expected_d], [expected_e] and [expected_g]. *)
Definition expected_x (build_size : option string) : option Z :=
  if size_is build_size "250mm" then Some 250
  else if size_is build_size "300mm" then Some 300
  else if size_is build_size "350mm" then Some 350
  else None.

(** [expected and length == expected + offset]: [None] and [0] are
    falsy. *)
Definition expected_and_length (expected : option Z) (length offset : Z)
  : bool :=
  match expected with
  | Some e => negb (e =? 0) && (length =? e + offset)
  | None => false
  end.

Definition rule_B (length : Z) (alterations : list string) : bool :=
  (length =? 500) && Py.str_in "LCP" alterations
  && Py.str_in "RCP" alterations && Py.str_in "AV360" alterations.

(** The [for] loop over [position_codes]; [true] when it returns ["C"].
    A suffix that is not an integer raises [ValueError] and the loop
    continues. *)
Fixpoint scan_position_codes (build_size : option string) (length : Z)
    (position_codes : list string) : bool :=
  match position_codes with
  | [] => false
  | pos_code :: rest =>
      match Py.int (Py.drop 2 pos_code) with
      | Some position =>
          let expected_c := expected_x build_size in
          if expected_and_length expected_c length 120 then
            let midpoint := length `div` 2 in
            if Z.abs (position - midpoint) <=? 5 then true
            else scan_position_codes build_size length rest
          else scan_position_codes build_size length rest
      | None => scan_position_codes build_size length rest
      end
  end.

Definition rule_C (build_size : option string) (length : Z)
    (alterations : list string) (quantity : Z) : bool :=
  if Py.str_in "TPW" alterations && (quantity =? 1) then
    let position_codes :=
      List.filter
        (fun alt => Py.startswith "AV" alt || Py.startswith "AH" alt)
        alterations in
    match position_codes with
    | [] => false
    | _ :: _ => scan_position_codes build_size length position_codes
    end
  else false.

Definition rule_F (build_size : option string) (length : Z)
    (alterations : list string) (quantity : Z) : bool :=
  if negb (Py.str_in "TPW" alterations) && (quantity =? 1) then
    let expected_f := expected_x build_size in
    if expected_and_length expected_f length 120 then
      Py.str_in "AH185" alterations || Py.str_in "AH235" alterations
    else false
  else false.

Definition rule_A (build_size : option string) (length : Z)
    (alterations : list string) : bool :=
  if Py.str_in "TPW" alterations
     && negb (Py.str_in "AH235" alterations)
     && negb (Py.str_in "AV235" alterations)
     && negb (Py.str_in "AH185" alterations) then
    let expected_a := expected_x build_size in
    expected_and_length expected_a length 120
  else false.

(** [not alterations]: the list is empty. *)
Definition no_alterations (alterations : list string) : bool :=
  match alterations with [] => true | _ :: _ => false end.

Definition rule_D (build_size : option string) (length : Z)
    (alterations : list string) (quantity : Z) : bool :=
  if no_alterations alterations && (quantity =? 1) then
    let expected_d := expected_x build_size in
    expected_and_length expected_d length (-10)
  else false.

Definition rule_E (build_size : option string) (length : Z)
    (alterations : list string) (quantity : Z) : bool :=
  if no_alterations alterations && (quantity =? 1) then
    let expected_e := expected_x build_size in
    expected_and_length expected_e length 80
  else false.

Definition rule_G (build_size : option string) (length : Z)
    (alterations : list string) (quantity : Z) : bool :=
  if Py.str_in "LTP" alterations && (quantity =? 1) then
    let expected_g := expected_x build_size in
    expected_and_length expected_g length (-18)
  else false.

Definition rule_H (length : Z) (alterations : list string) (quantity : Z)
  : bool :=
  if Py.str_in "LTP" alterations && (quantity =? 1) then length =? 330
  else false.

(** The chain of [if ...: return letter] blocks, in source order. *)
Definition classify (build_size : option string) (length : Z)
    (alterations : list string) (quantity : Z) : option string :=
  if rule_B length alterations then Some "B"
  else if rule_C build_size length alterations quantity then Some "C"
  else if rule_F build_size length alterations quantity then Some "F"
  else if rule_A build_size length alterations then Some "A"
  else if rule_D build_size length alterations quantity then Some "D"
  else if rule_E build_size length alterations quantity then Some "E"
  else if rule_G build_size length alterations quantity then Some "G"
  else if rule_H length alterations quantity then Some "H"
  else None.

Definition get_extrusion_letter (decoded : Decoded.t) (quantity : Z)
    (build_volume : option BuildVolume.t) : option string :=
  match decoded with
  | Decoded.Error _ => None
  | Decoded.Part p =>
      let length_raw := Decoded.length_raw p in
      let alterations := Decoded.alterations p in
      match Py.int length_raw with
      | None => None
      | Some length =>
          let build_size := resolve_build_size build_volume in
          classify build_size length alterations quantity
      end
  end.

End TridentPrinter.

(** ** [voron.py]: the legacy length-table classifier *)

Module Voron.

(** [build_size in ("250mm", "350mm")] and the like. *)
Definition size_in (build_size : option string) (labels : list string)
  : bool :=
  match build_size with
  | Some s => Py.str_in s labels
  | None => false
  end.

Definition classify (build_size : option string) (length : Z)
    (alterations : list string) (quantity : Z) : option string :=
  let has alt := Py.str_in alt alterations in
  if (length =? 500) && has "LCP" && has "RCP" && has "AV360" then Some "B"
  else if (length =? 340) && (quantity =? 1) then Some "A"
  else if (length =? 290) && (quantity =? 1) then Some "A"
  else if (length =? 240) && (quantity =? 1) then Some "A"
  else if ((length =? 330) || (length =? 332)) && has "LTP" then Some "E"
  else if ((length =? 380) || (length =? 382)) && has "LTP" then Some "E"
  else if ((length =? 430) || (length =? 432)) && has "LTP" then Some "E"
  else if (length =? 430) && (quantity =? 1) then Some "D"
  else if (length =? 380) && (quantity =? 1) then Some "D"
  else if (length =? 480) && (quantity =? 1) then Some "D"
  else if (length =? 470) && has "TPW" && negb (has "AH235") then
    if size_in build_size ["300mm"] then Some "C"
    else if size_in build_size ["250mm"; "350mm"] then Some "H"
    else Some "C/H"
  else if (length =? 420) && has "TPW" && negb (has "AH235") then Some "C"
  else if (length =? 520) && has "TPW" && negb (has "AH235") then Some "C"
  else if (length =? 470) && has "AH235" && has "TPW" && (quantity =? 1)
    then Some "F"
  else if (length =? 420) && has "AH235" && has "TPW" && (quantity =? 1)
    then Some "F"
  else if (length =? 520) && has "AH235" && has "TPW" && (quantity =? 1)
    then Some "F"
  else if (length =? 470) && has "AH235" && negb (has "TPW")
          && (quantity =? 1) then Some "G"
  else if (length =? 420) && has "AH235" && negb (has "TPW")
          && (quantity =? 1) then Some "G"
  else if (length =? 520) && has "AH235" && negb (has "TPW")
          && (quantity =? 1) then Some "G"
  else None.

Definition get_extrusion_letter (decoded : Decoded.t) (quantity : Z)
    (build_size : option string) : option string :=
  match decoded with
  | Decoded.Error _ => None
  | Decoded.Part p =>
      let length_raw := Decoded.length_raw p in
      let alterations := Decoded.alterations p in
      match Py.int length_raw with
      | None => None
      | Some length => classify build_size length alterations quantity
      end
  end.

End Voron.

(** ** Statements of the specification *)

(** Decoding the encoded part number gives back the series, the raw size,
    [str(length)] and the alteration tokens (none for an omitted list). *)
Definition round_trips (series size : string) (length : Z)
    (alterations : option (list string)) : Prop :=
  ∃ p : Decoded.part,
    decode_misumi_name (encode_part_number series size length alterations)
      = Decoded.Part p
    ∧ Decoded.series p = series
    ∧ Decoded.size_raw p = size
    ∧ Decoded.length_raw p = Py.str length
    ∧ Decoded.alterations p = default [] alterations.

Definition hyphen_free (s : string) : Prop := Py.has_char "-" s = false.

(** What the classifier and the specification table read of an
    [ExtrusionSpec]: letter, length, quantity and alterations. *)
Definition spec_row (s : ExtrusionSpec.t) : string * Z * Z * list string :=
  (ExtrusionSpec.letter s, ExtrusionSpec.length s, ExtrusionSpec.quantity s,
   ExtrusionSpec.alterations s).

(** The last character of a string, if any. *)
Fixpoint last_char (s : string) : option ascii :=
  match s with
  | EmptyString => None
  | String c EmptyString => Some c
  | String _ s' => last_char s'
  end.

(** The check that a table entry, read as letters followed by digits, has
    letters that are not a key of the table. *)
Definition base_code_unknown (entry : string * string) : bool :=
  match match_letters_digits entry.1 with
  | Some (base_code, _) =>
      match ALTERATION_CODES !! base_code with
      | Some _ => false
      | None => true
      end
  | None => true
  end.

Module PyStr.

(** [needle in haystack] for two strings. *)
Fixpoint contains (needle haystack : string) : bool :=
  Py.startswith needle haystack
  || match haystack with
     | String _ rest => contains needle rest
     | EmptyString => false
     end.

End PyStr.

(** The shape the specification names: one or more upper-case letters
    followed by one or more decimal digits, and nothing else. *)
Definition letters_then_digits (code : string) : Prop :=
  ∃ letters digits : string,
    code = letters +:+ digits
    ∧ Py.is_empty letters = false
    ∧ Py.all_chars Py.is_upper letters = true
    ∧ Py.is_empty digits = false
    ∧ Py.all_chars Py.is_digit digits = true.

(** C9 as stated, first half: a token that is neither a key nor of the
    shape is reported unknown as a whole. *)
Definition unknown_whole_token_as_stated : Prop :=
  ∀ code : string,
    ALTERATION_CODES !! code = None →
    ¬ letters_then_digits code →
    parse_alteration_code code = ("Unknown alteration code: " +:+ code, None).

(** C9 as stated, second half: a token of the shape whose letters are not
    a key is reported unknown by its letters, with the digits as
    qualifier. *)
Definition unknown_base_code_as_stated : Prop :=
  ∀ letters digits : string,
    Py.is_empty letters = false →
    Py.all_chars Py.is_upper letters = true →
    Py.is_empty digits = false →
    Py.all_chars Py.is_digit digits = true →
    ALTERATION_CODES !! letters = None →
    parse_alteration_code (letters +:+ digits)
    = ("Unknown alteration code: " +:+ letters, Some digits).

(** The rules tried before H, for the length, alterations and quantity of
    one part: none of them returns. *)
Definition rules_before_H_silent (build_size : option string) (length : Z)
    (alterations : list string) (quantity : Z) : Prop :=
  TridentPrinter.rule_B length alterations = false
  ∧ TridentPrinter.rule_C build_size length alterations quantity = false
  ∧ TridentPrinter.rule_F build_size length alterations quantity = false
  ∧ TridentPrinter.rule_A build_size length alterations = false
  ∧ TridentPrinter.rule_D build_size length alterations quantity = false
  ∧ TridentPrinter.rule_E build_size length alterations quantity = false
  ∧ TridentPrinter.rule_G build_size length alterations quantity = false.

(** The decoded part that corresponds to a generated specification: its
    length and its alterations written as a part number and decoded
    again. *)
Definition decoded_of_spec (s : ExtrusionSpec.t) : Decoded.t :=
  decode_misumi_name
    (encode_part_number "HFSB5" "2020" (ExtrusionSpec.length s)
       (Some (ExtrusionSpec.alterations s))).

(** For every role of a build volume, the letter of the specification and
    the letter the classifier gives to it. *)
Definition classify_generated (build_volume : BuildVolume.t)
  : list (string * option string) :=
  map
    (λ s, (ExtrusionSpec.letter s,
           TridentPrinter.get_extrusion_letter (decoded_of_spec s)
             (ExtrusionSpec.quantity s) (Some build_volume)))
    (TridentPrinter.get_extrusion_specs build_volume).

(** ** [decoder.py]: the description of a decoded part *)

(** The bullet U+2022 of the alteration lines.  It lies outside the
    character range of this embedding and is written as the three bytes of
    its UTF-8 encoding; it only ever appears as this literal. *)
Definition bullet : string :=
  String (ascii_of_N 226)
    (String (ascii_of_N 128) (String (ascii_of_N 162) EmptyString)).

(** The local list [lines] of [format_description], for a dictionary
    without the key [error]. *)
Definition format_description_lines (p : Decoded.part) : list string :=
  ["MISUMI Extrusion: " +:+ Decoded.part_number p;
   "  Series: " +:+ Decoded.series p;
   "  Size: " +:+ Decoded.size p;
   "  Length: " +:+ Decoded.length p]
  ++ match Decoded.alterations p with
     | _ :: _ =>
         "  Alterations:"
         :: map (λ desc, "    " +:+ bullet +:+ " " +:+ desc)
              (Decoded.alteration_descriptions p)
     | [] => ["  Alterations: None"]
     end.

Definition format_description (decoded : Decoded.t) : string :=
  match decoded with
  | Decoded.Error error => "Error: " +:+ error
  | Decoded.Part p =>
      Py.join (String line_feed EmptyString) (format_description_lines p)
  end.

(** ** [printers/base.py]: support of a build volume *)

Module PrinterType.

(** [PrinterType.supports_build_volume], over the list returned by
    [self.get_supported_build_volumes()]: the loop returns at the first
    volume with the same three dimensions. *)
Fixpoint supports_build_volume (supported : list BuildVolume.t)
    (build_volume : BuildVolume.t) : bool :=
  match supported with
  | [] => false
  | vol :: rest =>
      if (BuildVolume.x vol =? BuildVolume.x build_volume)
         && (BuildVolume.y vol =? BuildVolume.y build_volume)
         && (BuildVolume.z vol =? BuildVolume.z build_volume)
      then true
      else supports_build_volume rest build_volume
  end.

End PrinterType.

(** [TridentPrinter().supports_build_volume(build_volume)] *)
Definition trident_supports_build_volume (build_volume : BuildVolume.t)
  : bool :=
  PrinterType.supports_build_volume
    TridentPrinter.get_supported_build_volumes build_volume.

(** ** [voron.py]: the build size of a bill of materials *)

Module BomPart.

(** A row of [extract_misumi_from_bom]: the keys [part_number],
    [quantity] and [description], all strings. *)
Record t : Type := Build {
  part_number : string;
  quantity : string;
  description : string;
}.

End BomPart.

(** [detect_build_size]: the first part whose length is 340, 290 or 240
    decides; parts that do not decode or whose length is no integer are
    skipped. *)
Fixpoint detect_build_size (parts : list BomPart.t) : option string :=
  match parts with
  | [] => None
  | part :: rest =>
      match decode_misumi_name (BomPart.part_number part) with
      | Decoded.Error _ => detect_build_size rest
      | Decoded.Part p =>
          match Py.int (Decoded.length_raw p) with
          | Some length =>
              if length =? 340 then Some "350mm"
              else if length =? 290 then Some "300mm"
              else if length =? 240 then Some "250mm"
              else detect_build_size rest
          | None => detect_build_size rest
          end
      end
  end.

(** The build volume that [format_voron_bom_output] hands to the
    classifier for a detected build size; [if build_size:] is false for
    [None] and for the empty string. *)
Definition bom_build_volume (build_size : option string)
  : option BuildVolume.t :=
  match build_size with
  | Some s =>
      if Py.is_empty s then None
      else if String.eqb s "250mm" then
        Some (BuildVolume.init 250 250 250 None)
      else if String.eqb s "300mm" then
        Some (BuildVolume.init 300 300 250 None)
      else if String.eqb s "350mm" then
        Some (BuildVolume.init 350 350 250 None)
      else None
  | None => None
  end.

(** [int(qty)], with 1 for a quantity that is no integer. *)
Definition bom_quantity (qty : string) : Z := default 1 (Py.int qty).

(** The letter that [format_voron_bom_output] computes for a row, in its
    sort key and again in its output loop.  [get_printer("trident")] finds
    the Trident printer in the registry, so the build-volume-aware
    classifier is the one called. *)
Definition bom_letter (build_size : option string) (part : BomPart.t)
  : option string :=
  let decoded := decode_misumi_name (BomPart.part_number part) in
  let quantity := bom_quantity (BomPart.quantity part) in
  TridentPrinter.get_extrusion_letter decoded quantity
    (bom_build_volume build_size).

(** The part numbers that the encoder prints for a build volume: every
    generated specification encoded with series HFSB5 and size 2020, the
    quantity written in decimal. *)
Definition encoded_specs (build_volume : BuildVolume.t) : list BomPart.t :=
  map
    (λ spec,
       BomPart.Build
         (encode_part_number "HFSB5" "2020" (ExtrusionSpec.length spec)
            (Some (ExtrusionSpec.alterations spec)))
         (Py.str (ExtrusionSpec.quantity spec))
         (default "" (ExtrusionSpec.description spec)))
    (TridentPrinter.get_extrusion_specs build_volume).

(** ** What each letter of the classifier stands for *)

(** The width [X] of a build volume that the classifier resolves: a build
    volume is given and its [x] is 250, 300 or 350. *)
Definition supported_width (build_volume : option BuildVolume.t) (X : Z)
  : Prop :=
  ∃ bv, build_volume = Some bv ∧ BuildVolume.x bv = X
        ∧ (X = 250 ∨ X = 300 ∨ X = 350).

(** The length of a part is the resolved width plus an offset. *)
Definition width_plus (build_volume : option BuildVolume.t)
    (length offset : Z) : Prop :=
  ∃ X, supported_width build_volume X ∧ length = X + offset.

(** An alteration [AV...] or [AH...] whose integer suffix lies within 5 of
    half the length (rounded down). *)
Definition midpoint_hole (length : Z) (alterations : list string) : Prop :=
  ∃ (pos_code : string) (position : Z),
    pos_code ∈ alterations
    ∧ (Py.startswith "AV" pos_code = true
       ∨ Py.startswith "AH" pos_code = true)
    ∧ Py.int (Py.drop 2 pos_code) = Some position
    ∧ Z.abs (position - length `div` 2) <= 5.

(** The conditions under which the classifier can answer [letter]. *)
Definition letter_condition (build_volume : option BuildVolume.t)
    (length : Z) (alterations : list string) (quantity : Z)
    (letter : string) : Prop :=
  (letter = "B" ∧ length = 500 ∧ "LCP" ∈ alterations
   ∧ "RCP" ∈ alterations ∧ "AV360" ∈ alterations)
  ∨ (letter = "C" ∧ "TPW" ∈ alterations ∧ quantity = 1
     ∧ width_plus build_volume length 120
     ∧ midpoint_hole length alterations)
  ∨ (letter = "F" ∧ ("TPW" ∉ alterations) ∧ quantity = 1
     ∧ width_plus build_volume length 120
     ∧ ("AH185" ∈ alterations ∨ "AH235" ∈ alterations))
  ∨ (letter = "A" ∧ "TPW" ∈ alterations ∧ ("AH235" ∉ alterations)
     ∧ ("AV235" ∉ alterations) ∧ ("AH185" ∉ alterations)
     ∧ width_plus build_volume length 120)
  ∨ (letter = "D" ∧ alterations = [] ∧ quantity = 1
     ∧ width_plus build_volume length (-10))
  ∨ (letter = "E" ∧ alterations = [] ∧ quantity = 1
     ∧ width_plus build_volume length 80)
  ∨ (letter = "G" ∧ "LTP" ∈ alterations ∧ quantity = 1
     ∧ width_plus build_volume length (-18))
  ∨ (letter = "H" ∧ "LTP" ∈ alterations ∧ quantity = 1 ∧ length = 330).

(** ** What a detected build size stands for *)

(** The part decodes and its length is the integer [length]. *)
Definition part_length (part : BomPart.t) (length : Z) : Prop :=
  ∃ p, decode_misumi_name (BomPart.part_number part) = Decoded.Part p
       ∧ Py.int (Decoded.length_raw p) = Some length.

(** The three lengths that [detect_build_size] looks for, each with its
    build size. *)
Definition SIZE_OF_LENGTH : list (Z * string) :=
  [(340, "350mm"); (290, "300mm"); (240, "250mm")].

(** * Properties *)

(** ** Sample evaluations *)

Example py_split_empty : Py.split "-" "" = [""].
Proof. reflexivity. Qed.

Example py_split_gap : Py.split "-" "a--b" = ["a"; ""; "b"].
Proof. reflexivity. Qed.

Example py_join_three : Py.join "-" ["a"; "b"; "c"] = "a-b-c".
Proof. reflexivity. Qed.

Example py_str_samples : Py.str 0 = "0" /\ Py.str 470 = "470" /\ Py.str (-5) = "-5".
Proof. repeat split; reflexivity. Qed.

Example py_int_samples :
  Py.int "500" = Some 500 /\ Py.int " 0500 " = Some 500 /\
  Py.int "-5" = Some (-5) /\ Py.int "+5" = Some 5 /\
  Py.int "1_000" = Some 1000 /\ Py.int "1__0" = None /\
  Py.int "1_" = None /\ Py.int "_1" = None /\ Py.int "- 5" = None /\
  Py.int "" = None /\ Py.int "abc" = None /\ Py.int "5.0" = None.
Proof. repeat split; reflexivity. Qed.

Example parse_size_samples :
  parse_size "2020" = "20mm " +:+ times_sign +:+ " 20mm" /\
  parse_size "404020"
    = "40mm " +:+ times_sign +:+ " 40mm " +:+ times_sign +:+ " 20mm" /\
  parse_size "20" = "20 (custom size)".
Proof. repeat split; reflexivity. Qed.

Example parse_length_samples :
  parse_length "500" = "500mm" /\ parse_length "abc" = "abc".
Proof. repeat split; reflexivity. Qed.

Example parse_alteration_code_samples :
  parse_alteration_code "Z6"
    = ("Counterbore in Specified Position (Z6, d=6.5mm)", None) /\
  parse_alteration_code "L_T45" = ("Left 45-Degree Cut", None) /\
  parse_alteration_code "AV360"
    = ("Wrench Hole in Specified Position (Vertical, A position)",
       Some "360mm from left end") /\
  parse_alteration_code "JLP1100"
    = ("L Hole (Crisscross on Top, Parallel Joint)", Some "Hole pitch: 1100mm") /\
  parse_alteration_code "LL42" = ("Labeling (Unit Number)", Some "Unit: 42") /\
  parse_alteration_code "UNKNOWN" = ("Unknown alteration code: UNKNOWN", None) /\
  parse_alteration_code "XYZ123" = ("Unknown alteration code: XYZ", Some "123").
Proof. repeat split; vm_compute; reflexivity. Qed.

Example decode_scenario :
  decode_misumi_name "HFSB5-2020-500-LCP-RCP-AV360"
  = Decoded.Part
      {| Decoded.part_number := "HFSB5-2020-500-LCP-RCP-AV360";
         Decoded.series := "HFSB5";
         Decoded.size := "20mm " +:+ times_sign +:+ " 20mm";
         Decoded.size_raw := "2020";
         Decoded.length := "500mm";
         Decoded.length_raw := "500";
         Decoded.alterations := ["LCP"; "RCP"; "AV360"];
         Decoded.alteration_descriptions :=
           ["Left Wrench Access Hole (1 Slot, Crisscross)";
            "Right Wrench Access Hole (1 Slot, Crisscross)";
            "Wrench Hole in Specified Position (Vertical, A position) (360mm from left end)"] |}.
Proof. vm_compute. reflexivity. Qed.

Example encode_sample :
  encode_part_number "HFSB5" "2020" 500 (Some ["LCP"; "RCP"; "AV360"])
  = "HFSB5-2020-500-LCP-RCP-AV360".
Proof. reflexivity. Qed.

(** ** Strings: splitting and joining *)

Section SplitJoin.

Variable sep : ascii.

Lemma split_not_nil (s : string) : Py.split sep s ≠ [].
Proof.
  induction s as [|c s IH]; simpl; [done|].
  destruct (Ascii.eqb c sep); [done|].
  destruct (Py.split sep s); done.
Qed.

Lemma split_no_sep (s : string) :
  Py.has_char sep s = false → Py.split sep s = [s].
Proof.
  induction s as [|c s IH]; simpl; [done|].
  intros [Hc Hs]%orb_false_iff. rewrite Hc, (IH Hs). done.
Qed.

(** Splitting [p + sep + rest] when [p] holds no separator. *)
Lemma split_app_sep (p rest : string) :
  Py.has_char sep p = false →
  Py.split sep (p +:+ String sep rest) = p :: Py.split sep rest.
Proof.
  induction p as [|c p IH]; simpl.
  - intros _. rewrite Ascii.eqb_refl. done.
  - intros [Hc Hp]%orb_false_iff. rewrite Hc, (IH Hp). done.
Qed.

Lemma split_join (parts : list string) :
  parts ≠ [] →
  Forall (λ p, Py.has_char sep p = false) parts →
  Py.split sep (Py.join (String sep EmptyString) parts) = parts.
Proof.
  intros Hne Hall. induction Hall as [|p ps Hp Hps IH]; [done|].
  destruct ps as [|q ps].
  - simpl. by apply split_no_sep.
  - change (Py.join (String sep EmptyString) (p :: q :: ps))
      with (p +:+ String sep (Py.join (String sep EmptyString) (q :: ps))).
    rewrite split_app_sep by done. f_equal. by apply IH.
Qed.

End SplitJoin.

(** [str(n)] of a non-negative integer holds digits only. *)
Lemma string_of_uint_digits (d : Decimal.uint) :
  Py.all_chars Py.is_digit (NilEmpty.string_of_uint d) = true.
Proof. induction d; simpl; auto. Qed.

Lemma all_digits_no_hyphen (s : string) :
  Py.all_chars Py.is_digit s = true → Py.has_char "-" s = false.
Proof.
  induction s as [|c s IH]; simpl; [done|].
  intros [Hc Hs]%andb_true_iff. rewrite (IH Hs), orb_false_r.
  destruct (Ascii.eqb_spec c "-") as [->|]; [discriminate Hc | done].
Qed.

Lemma str_nonneg_digits (n : Z) :
  0 <= n → Py.all_chars Py.is_digit (Py.str n) = true.
Proof.
  intros Hn. unfold Py.str. destruct n as [|p|p]; [done| |lia].
  simpl. unfold NilZero.string_of_uint.
  destruct (Pos.to_uint p); try apply string_of_uint_digits. done.
Qed.

Lemma str_nonneg_no_hyphen (n : Z) :
  0 <= n → Py.has_char "-" (Py.str n) = false.
Proof. intros Hn. by apply all_digits_no_hyphen, str_nonneg_digits. Qed.

(** ** Encoding followed by decoding *)

Lemma encode_parts (series size : string) (length : Z)
    (alterations : option (list string)) :
  encode_part_number series size length alterations
  = Py.join "-" (series :: size :: Py.str length :: default [] alterations).
Proof. by destruct alterations as [[|a alts]|]. Qed.

(** C2, as stated, fails: a hyphen inside the series is read back as a
    segment boundary, so the series [HFS-B5] comes back as [HFS], the size as
    [B5], the length as [2020] and the real length as an alteration. *)
Lemma encode_decode_hyphen_counterexample :
  ¬ round_trips "HFS-B5" "2020" 500 None
  ∧ decode_misumi_name (encode_part_number "HFS-B5" "2020" 500 None)
    = decode_misumi_name "HFS-B5-2020-500"
  ∧ ∃ p, decode_misumi_name "HFS-B5-2020-500" = Decoded.Part p
         ∧ Decoded.series p = "HFS" ∧ Decoded.size_raw p = "B5"
         ∧ Decoded.length_raw p = "2020" ∧ Decoded.alterations p = ["500"].
Proof.
  split; [|split; [reflexivity|]].
  - intros (p & Hdec & Hseries & _). vm_compute in Hdec.
    injection Hdec as <-. discriminate Hseries.
  - eexists. vm_compute. repeat split; reflexivity.
Qed.

(** The same happens with the sign of a negative length. *)
Example encode_decode_negative_length :
  ¬ round_trips "HFSB5" "2020" (-5) None.
Proof.
  intros (p & Hdec & _ & _ & Hlen & _). vm_compute in Hdec.
  injection Hdec as <-. discriminate Hlen.
Qed.

(** C2, amended: when the series, the size and every alteration token hold
    no hyphen and the length is not negative, decoding the encoded part
    number gives back the series, the raw size, [str(length)] and the
    alteration tokens; an empty or omitted list gives the empty list. *)
Theorem encode_decode_round_trip (series size : string) (length : Z)
    (alterations : option (list string)) :
  hyphen_free series →
  hyphen_free size →
  0 <= length →
  Forall hyphen_free (default [] alterations) →
  round_trips series size length alterations.
Proof.
  intros Hseries Hsize Hlen Halts. unfold round_trips.
  rewrite encode_parts. unfold decode_misumi_name.
  rewrite (split_join "-") by
    (try done; repeat (apply Forall_cons; split);
     auto using str_nonneg_no_hyphen).
  eexists. split; [reflexivity|]. simpl. done.
Qed.

Lemma encode_decode_round_trip_witness :
  round_trips "HFSB5" "2020" 500 (Some ["LCP"; "RCP"; "AV360"])
  ∧ round_trips "HFSB5" "2020" 500 None.
Proof.
  split.
  - apply (encode_decode_round_trip "HFSB5" "2020" 500
             (Some ["LCP"; "RCP"; "AV360"]));
      [reflexivity | reflexivity | lia |].
    repeat (apply Forall_cons; split; [reflexivity|]). apply Forall_nil_2.
  - apply (encode_decode_round_trip "HFSB5" "2020" 500 None);
      [reflexivity | reflexivity | lia |]. apply Forall_nil_2.
Defined.

(** ** The two shapes of a decode result *)

(** C3: [decode_misumi_name] returns the error dictionary exactly when the
    part number has fewer than three hyphen-separated segments.  Otherwise
    it returns the eight normal fields: the part number is the input, the
    first three segments are the series, the raw size and the raw length,
    the remaining ones are the alterations, and there is one description
    per alteration. *)
Theorem decode_error_iff_too_few_segments (part_number : string) :
  let segments := Py.split "-" part_number in
  (Decoded.has_error (decode_misumi_name part_number) = true
   ↔ (length segments < 3)%nat)
  ∧ match decode_misumi_name part_number with
    | Decoded.Error _ => (length segments < 3)%nat
    | Decoded.Part p =>
        (3 ≤ length segments)%nat
        ∧ Decoded.part_number p = part_number
        ∧ segments
          = Decoded.series p :: Decoded.size_raw p :: Decoded.length_raw p
              :: Decoded.alterations p
        ∧ Decoded.size p = parse_size (Decoded.size_raw p)
        ∧ Decoded.length p = parse_length (Decoded.length_raw p)
        ∧ length (Decoded.alteration_descriptions p)
          = length (Decoded.alterations p)
    end.
Proof.
  unfold decode_misumi_name.
  destruct (Py.split "-" part_number) as [|s1 [|s2 [|s3 alts]]]; simpl;
    (split; [split; intros; try done; try lia|]); try lia.
  repeat split; try done; try lia. by rewrite length_map.
Qed.

Lemma decode_error_iff_too_few_segments_witness :
  Decoded.has_error (decode_misumi_name "HFSB5-2020") = true
  ∧ Decoded.has_error (decode_misumi_name "HFSB5-2020-330-LTP") = false.
Proof.
  split.
  - apply (decode_error_iff_too_few_segments "HFSB5-2020"). simpl. lia.
  - destruct (decode_error_iff_too_few_segments "HFSB5-2020-330-LTP")
      as [[Herr _] _].
    destruct (Decoded.has_error (decode_misumi_name "HFSB5-2020-330-LTP"));
      [|reflexivity].
    specialize (Herr eq_refl). simpl in Herr. lia.
Defined.

(** ** The generated specifications *)

(** C4: for a build volume of width [X], [get_extrusion_specs] returns the
    eight roles A to H in this order, with lengths [X+120], [500], [X+120],
    [X-10], [X+80], [X+120], [X-18], [330], quantities 9, 4, 1, 1, 1, 1, 1, 1
    and the alterations of the table; for 350x350x250 role A is 470 long with
    quantity 9 and [TPW], role B is 500 long with quantity 4 and role H is
    330 long with quantity 1. *)
Theorem get_extrusion_specs_table (build_volume : BuildVolume.t) :
  let X := BuildVolume.x build_volume in
  map spec_row (TridentPrinter.get_extrusion_specs build_volume)
  = [("A", X + 120, 9, ["TPW"]);
     ("B", 500, 4, ["LCP"; "RCP"; "AV360"]);
     ("C", X + 120, 1, ["AV" +:+ Py.str ((X + 120) `div` 2); "TPW"]);
     ("D", X - 10, 1, []);
     ("E", X + 80, 1, []);
     ("F", X + 120, 1, ["AH235"; "TPW"]);
     ("G", X - 18, 1, ["AH235"]);
     ("H", 330, 1, [])]
  ∧ map spec_row
      (TridentPrinter.get_extrusion_specs (BuildVolume.init 350 350 250 None))
    = [("A", 470, 9, ["TPW"]);
       ("B", 500, 4, ["LCP"; "RCP"; "AV360"]);
       ("C", 470, 1, ["AV235"; "TPW"]);
       ("D", 340, 1, []);
       ("E", 430, 1, []);
       ("F", 470, 1, ["AH235"; "TPW"]);
       ("G", 332, 1, ["AH235"]);
       ("H", 330, 1, [])].
Proof. split; reflexivity. Qed.

(** ** Alteration tokens *)

Lemma lookup_code_entry (code description : string) :
  ALTERATION_CODES !! code = Some description →
  (code, description) ∈ ALTERATION_CODE_ENTRIES.
Proof. apply elem_of_list_to_map_2. Qed.

(** No key of the table occurs twice, so the map holds every entry of the
    dictionary literal. *)
Lemma alteration_code_keys_NoDup : NoDup (ALTERATION_CODE_ENTRIES.*1).
Proof. apply (bool_decide_unpack _). by vm_compute. Qed.

(** C7: a token that is a key of the table gets the description of the
    table and no qualifier, because the exact look-up comes first. *)
Theorem parse_alteration_code_table_key (code description : string) :
  ALTERATION_CODES !! code = Some description →
  parse_alteration_code code = (description, None).
Proof. intros Hkey. unfold parse_alteration_code. by rewrite Hkey. Qed.

(** The keys that also have the letters-then-digits shape are not split. *)
Lemma parse_alteration_code_table_key_witness :
  Forall
    (λ code,
       is_Some (match_letters_digits code)
       ∧ ∃ description,
           ALTERATION_CODES !! code = Some description
           ∧ parse_alteration_code code = (description, None))
    ["Z5"; "Z6"; "Z8"; "Z12"; "X5"; "X8"].
Proof.
  repeat (apply Forall_cons; split;
          [split; [by eexists | eexists; split; [by vm_compute|];
                   by apply parse_alteration_code_table_key; vm_compute] |]).
  apply Forall_nil_2.
Defined.

(** *** The pattern [^([A-Z]+)(\d+)$] *)

Lemma digit_not_upper (c : ascii) :
  Py.is_digit c = true → Py.is_upper c = false.
Proof.
  unfold Py.is_digit, Py.is_upper.
  intros [_ H]%andb_true_iff. apply N.leb_le in H.
  apply andb_false_iff. left. apply N.leb_gt. lia.
Qed.

Lemma digit_not_line_feed (c : ascii) :
  Py.is_digit c = true → Ascii.eqb c line_feed = false.
Proof.
  intros Hc. destruct (Ascii.eqb_spec c line_feed) as [->|]; [|done].
  discriminate Hc.
Qed.

Lemma chomp_line_feed_id (s : string) :
  last_char s ≠ Some line_feed → chomp_line_feed s = s.
Proof.
  induction s as [|c s IH]; [done|].
  destruct s as [|d s].
  - simpl. intros Hc. destruct (Ascii.eqb_spec c line_feed) as [->|]; done.
  - intros Hlast. change (chomp_line_feed (String c (String d s)))
      with (String c (chomp_line_feed (String d s))).
    f_equal. by apply IH.
Qed.

Lemma last_char_app (s t : string) :
  Py.is_empty t = false → last_char (s +:+ t) = last_char t.
Proof.
  intros Ht. induction s as [|c s IH]; [done|].
  simpl. rewrite <- IH. destruct (s +:+ t) eqn:E; [|done].
  destruct s as [|d s]; [|discriminate E].
  change (t = EmptyString) in E. by subst t.
Qed.

Lemma last_char_digits (s : string) :
  Py.all_chars Py.is_digit s = true → last_char s ≠ Some line_feed.
Proof.
  induction s as [|c s IH]; [done|].
  simpl. intros [Hc Hs]%andb_true_iff. destruct s as [|d s].
  - intros [= ->]. discriminate Hc.
  - by apply IH.
Qed.

Lemma span_upper_app (letters rest : string) :
  Py.all_chars Py.is_upper letters = true →
  Py.all_chars Py.is_upper (Py.take 1 rest) = Py.is_empty rest →
  span_upper (letters +:+ rest) = (letters, rest).
Proof.
  intros Hup Hrest. induction letters as [|c l IH]; simpl in *.
  - destruct rest as [|d r]; [done|]. simpl in *.
    rewrite andb_true_r in Hrest. by rewrite Hrest.
  - apply andb_true_iff in Hup as [Hc Hl]. by rewrite Hc, (IH Hl).
Qed.

Lemma span_upper_spec (s letters rest : string) :
  span_upper s = (letters, rest) →
  s = letters +:+ rest ∧ Py.all_chars Py.is_upper letters = true.
Proof.
  revert letters rest. induction s as [|c s IH]; simpl; intros letters rest.
  - by intros [= <- <-].
  - destruct (Py.is_upper c) eqn:Hc.
    + destruct (span_upper s) as [l r]. intros [= <- <-].
      destruct (IH l r eq_refl) as [-> Hl]. simpl. by rewrite Hc, Hl.
    + by intros [= <- <-].
Qed.

(** A token made of upper-case letters followed by digits matches, and the
    groups are the two parts. *)
Lemma match_letters_digits_app (letters digits : string) :
  Py.is_empty letters = false →
  Py.all_chars Py.is_upper letters = true →
  Py.is_empty digits = false →
  Py.all_chars Py.is_digit digits = true →
  match_letters_digits (letters +:+ digits) = Some (letters, digits).
Proof.
  intros Hl Hup Hd Hdig. unfold match_letters_digits.
  rewrite chomp_line_feed_id
    by (rewrite last_char_app by done; by apply last_char_digits).
  rewrite span_upper_app; [by rewrite Hl, Hd, Hdig | done |].
  destruct digits as [|d r]; [done|]. simpl in *.
  apply andb_true_iff in Hdig as [Hdig _].
  by rewrite (digit_not_upper _ Hdig).
Qed.

(** A successful match splits the token, up to one final line feed, into
    upper-case letters and digits. *)
Lemma match_letters_digits_spec (code letters digits : string) :
  match_letters_digits code = Some (letters, digits) →
  chomp_line_feed code = letters +:+ digits
  ∧ Py.is_empty letters = false
  ∧ Py.all_chars Py.is_upper letters = true
  ∧ Py.is_empty digits = false
  ∧ Py.all_chars Py.is_digit digits = true.
Proof.
  unfold match_letters_digits.
  destruct (span_upper (chomp_line_feed code)) as [l d] eqn:Hspan.
  apply span_upper_spec in Hspan as [Hcode Hup].
  destruct (Py.is_empty l) eqn:Hl; [done|].
  destruct (Py.is_empty d) eqn:Hd; [done|]. simpl.
  destruct (Py.all_chars Py.is_digit d) eqn:Hdig; [|done].
  by intros [= <- <-].
Qed.

(** No key of the table is a key of the table followed by digits. *)
Lemma table_key_not_suffixed (code description letters digits : string) :
  ALTERATION_CODES !! code = Some description →
  match_letters_digits code = Some (letters, digits) →
  ALTERATION_CODES !! letters = None.
Proof.
  intros Hkey%lookup_code_entry%list_elem_of_In Hmatch.
  assert (forallb base_code_unknown ALTERATION_CODE_ENTRIES = true) as Hall
    by (vm_compute; reflexivity).
  rewrite forallb_forall in Hall. specialize (Hall _ Hkey).
  unfold base_code_unknown in Hall. cbn [fst] in Hall.
  rewrite Hmatch in Hall.
  destruct (ALTERATION_CODES !! letters); [discriminate Hall | reflexivity].
Qed.

Lemma parse_alteration_code_not_key (code : string) :
  ALTERATION_CODES !! code = None →
  parse_alteration_code code = parse_unmatched code.
Proof.
  intros Hkey. unfold parse_alteration_code. rewrite Hkey.
  by destruct (Py.has_char _ code).
Qed.

(** A known base code followed by digits is not itself a key, so it
    reaches the suffix branch. *)
Lemma parse_alteration_code_suffixed (base_code digits description : string) :
  ALTERATION_CODES !! base_code = Some description →
  Py.is_empty base_code = false →
  Py.all_chars Py.is_upper base_code = true →
  Py.is_empty digits = false →
  Py.all_chars Py.is_digit digits = true →
  parse_alteration_code (base_code +:+ digits)
  = parse_suffixed base_code digits.
Proof.
  intros Hbase Hne Hup Hd Hdig.
  pose proof (match_letters_digits_app _ _ Hne Hup Hd Hdig) as Hmatch.
  rewrite parse_alteration_code_not_key.
  - unfold parse_unmatched. by rewrite Hmatch.
  - destruct (ALTERATION_CODES !! (base_code +:+ digits)) as [d|] eqn:Hkey;
      [|done].
    pose proof (table_key_not_suffixed _ _ _ _ Hkey Hmatch). congruence.
Qed.

(** *** Known base codes with a numeric suffix *)

(** Rewrites [parse_alteration_code (base +:+ digits)], for a literal base
    code of the table, into the suffix branch and evaluates the branch. *)
Ltac eval_suffixed :=
  lazymatch goal with
  | |- context [parse_alteration_code (?b +:+ ?d)] =>
      let found := eval vm_compute in (ALTERATION_CODES !! b) in
      lazymatch found with
      | Some ?description =>
          rewrite (parse_alteration_code_suffixed b d description)
            by first [assumption | vm_compute; reflexivity]
      end
  end;
  vm_compute; reflexivity.

(** C8: a position-letter base code followed by a non-empty string of
    decimal digits [D] gets the description of the base code and the
    qualifier [D] followed by [mm from left end]; for JLP and KLP the
    qualifier is [Hole pitch: ] [D] [mm], for ZZZ it is [Serial: ] [D] and
    for LL it is [Unit: ] [D]. *)
Theorem parse_alteration_code_known_suffix (base_code digits : string) :
  Py.is_empty digits = false →
  Py.all_chars Py.is_digit digits = true →
  (base_code ∈ POSITION_CODES →
   ∃ description,
     ALTERATION_CODES !! base_code = Some description
     ∧ parse_alteration_code (base_code +:+ digits)
       = (description, Some (digits +:+ "mm from left end")))
  ∧ (base_code ∈ ["JLP"; "KLP"] →
     ∃ description,
       ALTERATION_CODES !! base_code = Some description
       ∧ parse_alteration_code (base_code +:+ digits)
         = (description, Some ("Hole pitch: " +:+ digits +:+ "mm")))
  ∧ (base_code = "ZZZ" →
     parse_alteration_code (base_code +:+ digits)
     = ("Labeling (Serial Number)", Some ("Serial: " +:+ digits)))
  ∧ (base_code = "LL" →
     parse_alteration_code (base_code +:+ digits)
     = ("Labeling (Unit Number)", Some ("Unit: " +:+ digits))).
Proof.
  intros Hne Hdig. repeat split.
  - intros Hin. unfold POSITION_CODES in Hin.
    repeat (apply elem_of_cons in Hin as [->|Hin]);
      [..|by apply elem_of_nil in Hin];
      (eexists; split; [vm_compute; reflexivity | eval_suffixed]).
  - intros Hin.
    repeat (apply elem_of_cons in Hin as [->|Hin]);
      [..|by apply elem_of_nil in Hin];
      (eexists; split; [vm_compute; reflexivity | eval_suffixed]).
  - intros ->. eval_suffixed.
  - intros ->. eval_suffixed.
Qed.

Lemma parse_alteration_code_known_suffix_witness :
  parse_alteration_code "ZZZ123"
  = ("Labeling (Serial Number)", Some "Serial: 123")
  ∧ ∃ description,
      ALTERATION_CODES !! "XA" = Some description
      ∧ parse_alteration_code "XA200"
        = (description, Some "200mm from left end").
Proof.
  split.
  - apply (parse_alteration_code_known_suffix "ZZZ" "123"); reflexivity.
  - apply (parse_alteration_code_known_suffix "XA" "200");
      [reflexivity | reflexivity |].
    unfold POSITION_CODES. do 15 apply list_elem_of_further.
    apply list_elem_of_here.
Defined.

(** *** Unknown tokens *)

Lemma letters_then_digits_last_char (code : string) :
  letters_then_digits code → last_char code ≠ Some line_feed.
Proof.
  intros (letters & digits & -> & _ & _ & Hne & Hdig).
  rewrite last_char_app by done. by apply last_char_digits.
Qed.

Lemma last_char_of_digits (s : string) :
  Py.is_empty s = false →
  Py.all_chars Py.is_digit s = true →
  ∃ c, last_char s = Some c ∧ Py.is_digit c = true.
Proof.
  induction s as [|c s IH]; [done|].
  intros _ [Hc Hs]%andb_true_iff. destruct s as [|d s].
  - by exists c.
  - destruct (IH eq_refl Hs) as (e & He & Hdig). by exists e.
Qed.

Lemma letters_then_digits_ends_in_digit (code : string) :
  letters_then_digits code →
  ∃ c, last_char code = Some c ∧ Py.is_digit c = true.
Proof.
  intros (letters & digits & -> & _ & _ & Hne & Hdig).
  rewrite last_char_app by done. by apply last_char_of_digits.
Qed.

Lemma contains_unknown (what : string) :
  PyStr.contains "Unknown alteration code"
    ("Unknown alteration code: " +:+ what) = true.
Proof. reflexivity. Qed.

(** C9 fails in both halves.  [Z5] has the shape and [Z] is not a key, but
    [Z5] is a key itself and the exact look-up wins.  [AV360] followed by a
    line feed is neither a key nor of the shape, but [$] accepts the final
    line feed and the token is decoded as [AV] with suffix [360]. *)
Lemma unknown_code_counterexample :
  ¬ unknown_base_code_as_stated ∧ ¬ unknown_whole_token_as_stated.
Proof.
  split.
  - intros Hclaim.
    specialize (Hclaim "Z" "5" eq_refl eq_refl eq_refl eq_refl).
    assert (ALTERATION_CODES !! "Z" = None) as Hkey
      by (vm_compute; reflexivity).
    specialize (Hclaim Hkey). vm_compute in Hclaim. discriminate Hclaim.
  - intros Hclaim.
    specialize (Hclaim ("AV360" +:+ String line_feed EmptyString)).
    assert (ALTERATION_CODES !! ("AV360" +:+ String line_feed EmptyString)
            = None) as Hkey by (vm_compute; reflexivity).
    specialize (Hclaim Hkey).
    assert (parse_alteration_code ("AV360" +:+ String line_feed EmptyString)
            = ("Wrench Hole in Specified Position (Vertical, A position)",
               Some "360mm from left end")) as Hcode
      by (vm_compute; reflexivity).
    rewrite Hcode in Hclaim.
    assert (¬ letters_then_digits
                ("AV360" +:+ String line_feed EmptyString)) as Hshape.
    { intros Hs%letters_then_digits_last_char. by apply Hs. }
    specialize (Hclaim Hshape). discriminate Hclaim.
Qed.

(** C9, amended: for a token that is not a key of the table,
    - if the token, less one final line feed when it has one, is not of the
      letters-then-digits shape, the description is
      [Unknown alteration code: ] followed by the whole token and there is
      no qualifier;
    - if the token is upper-case letters followed by digits and the letters
      are not a key, the description is [Unknown alteration code: ] followed
      by the letters and the qualifier is the digits.
    In both cases the description contains [Unknown alteration code]. *)
Theorem parse_alteration_code_unknown (code : string) :
  ALTERATION_CODES !! code = None →
  (¬ letters_then_digits (chomp_line_feed code) →
   parse_alteration_code code = ("Unknown alteration code: " +:+ code, None)
   ∧ PyStr.contains "Unknown alteration code"
       (parse_alteration_code code).1 = true)
  ∧ (∀ letters digits : string,
       code = letters +:+ digits →
       Py.is_empty letters = false →
       Py.all_chars Py.is_upper letters = true →
       Py.is_empty digits = false →
       Py.all_chars Py.is_digit digits = true →
       ALTERATION_CODES !! letters = None →
       parse_alteration_code code
       = ("Unknown alteration code: " +:+ letters, Some digits)
       ∧ PyStr.contains "Unknown alteration code"
           (parse_alteration_code code).1 = true).
Proof.
  intros Hkey. rewrite (parse_alteration_code_not_key _ Hkey).
  unfold parse_unmatched. split.
  - intros Hshape.
    destruct (match_letters_digits code) as [[l d]|] eqn:Hmatch.
    + apply match_letters_digits_spec in Hmatch as (Hcode & Hrest).
      destruct Hshape. by exists l, d.
    + split; [reflexivity | apply contains_unknown].
  - intros letters digits -> Hl Hup Hd Hdig Hbase.
    rewrite (match_letters_digits_app _ _ Hl Hup Hd Hdig).
    unfold parse_suffixed. rewrite Hbase.
    split; [reflexivity | apply contains_unknown].
Qed.

Lemma parse_alteration_code_unknown_witness :
  parse_alteration_code "UNKNOWN" = ("Unknown alteration code: UNKNOWN", None)
  ∧ parse_alteration_code "XYZ123"
    = ("Unknown alteration code: XYZ", Some "123").
Proof.
  split.
  - apply (parse_alteration_code_unknown "UNKNOWN").
    + vm_compute. reflexivity.
    + intros (c & Hlast & Hc)%letters_then_digits_ends_in_digit.
      vm_compute in Hlast. injection Hlast as <-. discriminate Hc.
  - apply (proj2 (parse_alteration_code_unknown "XYZ123"
                    ltac:(vm_compute; reflexivity)) "XYZ" "123");
      vm_compute; reflexivity.
Defined.

(** ** The build-volume-aware classifier *)

Lemma str_in_spec (x : string) (xs : list string) :
  Py.str_in x xs = true ↔ x ∈ xs.
Proof.
  unfold Py.str_in. rewrite existsb_exists. split.
  - intros (y & Hy%list_elem_of_In & ->%String.eqb_eq). done.
  - intros Hx. exists x. rewrite <- list_elem_of_In, String.eqb_refl. done.
Qed.

Section Classifier.

Import TridentPrinter.

(** The widths for which [build_size] is resolved. *)
Lemma resolve_build_size_None (build_volume : option BuildVolume.t) :
  (∀ bv, build_volume = Some bv →
         BuildVolume.x bv ≠ 250 ∧ BuildVolume.x bv ≠ 300
         ∧ BuildVolume.x bv ≠ 350) →
  resolve_build_size build_volume = None.
Proof.
  destruct build_volume as [bv|]; [|done]. intros H.
  destruct (H bv eq_refl) as (H1 & H2 & H3). unfold resolve_build_size.
  apply Z.eqb_neq in H1, H2, H3. by rewrite H1, H2, H3.
Qed.

(** A length test on [expected] succeeds only for one of the three
    supported widths. *)
Lemma expected_and_length_true (build_size : option string)
    (length offset : Z) :
  expected_and_length (expected_x build_size) length offset = true →
  length = 250 + offset ∨ length = 300 + offset ∨ length = 350 + offset.
Proof.
  unfold expected_x, expected_and_length.
  repeat case_match; simplify_eq; try done;
    intros [_ ?%Z.eqb_eq]%andb_true_iff; auto.
Qed.

Lemma scan_position_codes_false (build_size : option string) (length : Z)
    (position_codes : list string) :
  expected_and_length (expected_x build_size) length 120 = false →
  scan_position_codes build_size length position_codes = false.
Proof.
  intros Hexp. induction position_codes as [|c cs IH]; [done|].
  simpl. rewrite Hexp. by destruct (Py.int _).
Qed.

Lemma rule_C_false (build_size : option string) (length : Z)
    (alterations : list string) (quantity : Z) :
  expected_and_length (expected_x build_size) length 120 = false →
  rule_C build_size length alterations quantity = false.
Proof.
  intros Hexp. unfold rule_C. repeat case_match; try done.
  by apply scan_position_codes_false.
Qed.

(** Without a resolved build size only the two fixed-length rules are
    left. *)
Lemma classify_unresolved (length : Z) (alterations : list string)
    (quantity : Z) :
  classify None length alterations quantity
  = if rule_B length alterations then Some "B"
    else if rule_H length alterations quantity then Some "H"
    else None.
Proof.
  unfold classify. rewrite rule_C_false by done.
  unfold rule_F, rule_A, rule_D, rule_E, rule_G.
  change (expected_x None) with (@None Z). unfold expected_and_length.
  by repeat case_match.
Qed.

Lemma classify_letters (build_size : option string) (length : Z)
    (alterations : list string) (quantity : Z) :
  classify build_size length alterations quantity
  ∈ [None; Some "A"; Some "B"; Some "C"; Some "D"; Some "E"; Some "F";
     Some "G"; Some "H"].
Proof. unfold classify. repeat case_match; set_solver. Qed.

End Classifier.

(** C5: when no build volume is given, or its width is none of 250, 300
    and 350, the classifier returns B, H or [None], and none of the letters
    that depend on the width.  (The function is total: it has no path that
    raises.) *)
Theorem classify_unsupported_width (decoded : Decoded.t) (quantity : Z)
    (build_volume : option BuildVolume.t) :
  (∀ bv, build_volume = Some bv →
         BuildVolume.x bv ≠ 250 ∧ BuildVolume.x bv ≠ 300
         ∧ BuildVolume.x bv ≠ 350) →
  TridentPrinter.get_extrusion_letter decoded quantity build_volume
  ∈ [Some "B"; Some "H"; None].
Proof.
  intros Hbv%resolve_build_size_None.
  unfold TridentPrinter.get_extrusion_letter.
  destruct decoded as [e|p]; [set_solver|].
  destruct (Py.int _) as [length|]; [|set_solver].
  rewrite Hbv, classify_unresolved. repeat case_match; set_solver.
Qed.

Lemma classify_unsupported_width_witness :
  TridentPrinter.get_extrusion_letter
    (decode_misumi_name "HFSB5-2020-370-TPW") 9 None
  ∈ [Some "B"; Some "H"; None]
  ∧ TridentPrinter.get_extrusion_letter
      (decode_misumi_name "HFSB5-2020-370-TPW") 9
      (Some (BuildVolume.init 400 400 250 None))
    ∈ [Some "B"; Some "H"; None].
Proof.
  split.
  - apply (classify_unsupported_width
             (decode_misumi_name "HFSB5-2020-370-TPW") 9 None).
    intros bv Hbv. discriminate Hbv.
  - apply (classify_unsupported_width
             (decode_misumi_name "HFSB5-2020-370-TPW") 9
             (Some (BuildVolume.init 400 400 250 None))).
    intros bv [= <-]. simpl. lia.
Defined.

Example classify_unsupported_width_samples :
  TridentPrinter.get_extrusion_letter
    (decode_misumi_name "HFSB5-2020-370-TPW") 9 None = None
  ∧ TridentPrinter.get_extrusion_letter
      (decode_misumi_name "HFSB5-2020-370-TPW") 9
      (Some (BuildVolume.init 250 250 250 None)) = Some "A"
  ∧ TridentPrinter.get_extrusion_letter
      (decode_misumi_name "HFSB5-2020-500-LCP-RCP-AV360") 4 None = Some "B"
  ∧ TridentPrinter.get_extrusion_letter
      (decode_misumi_name "HFSB5-2020-330-LTP") 1 None = Some "H".
Proof. repeat split; vm_compute; reflexivity. Qed.

(** *** Role H *)

Lemma classify_H_last (build_size : option string) (length : Z)
    (alterations : list string) (quantity : Z) :
  rules_before_H_silent build_size length alterations quantity →
  TridentPrinter.classify build_size length alterations quantity
  = if TridentPrinter.rule_H length alterations quantity then Some "H"
    else None.
Proof.
  intros (HB & HC & HF & HA & HD & HE & HG). unfold TridentPrinter.classify.
  by rewrite HB, HC, HF, HA, HD, HE, HG.
Qed.

Lemma expected_and_length_330 (build_size : option string) (offset : Z) :
  offset = 120 ∨ offset = -18 →
  TridentPrinter.expected_and_length
    (TridentPrinter.expected_x build_size) 330 offset = false.
Proof.
  intros Hoff. apply not_true_is_false.
  intros H%expected_and_length_true. lia.
Qed.

(** C6: a part with LTP among its alterations, quantity 1 and length 330
    is classified H, for every build volume and also without one: G, which
    is tried first, asks for the length [expectedX - 18], which is 232, 282
    or 332 and never 330, and no earlier rule fires either. *)
Theorem classify_H_after_G (p : Decoded.part)
    (build_volume : option BuildVolume.t) :
  "LTP" ∈ Decoded.alterations p →
  Py.int (Decoded.length_raw p) = Some 330 →
  rules_before_H_silent (TridentPrinter.resolve_build_size build_volume)
    330 (Decoded.alterations p) 1
  ∧ TridentPrinter.rule_H 330 (Decoded.alterations p) 1 = true
  ∧ TridentPrinter.get_extrusion_letter (Decoded.Part p) 1 build_volume
    = Some "H".
Proof.
  intros Hltp Hlen.
  set (build_size := TridentPrinter.resolve_build_size build_volume).
  assert (rules_before_H_silent build_size 330 (Decoded.alterations p) 1)
    as Hsilent.
  { pose proof (expected_and_length_330 build_size 120 (or_introl eq_refl))
      as H120.
    pose proof (expected_and_length_330 build_size (-18) (or_intror eq_refl))
      as H18.
    unfold rules_before_H_silent. split_and!.
    - done.
    - by apply rule_C_false.
    - unfold TridentPrinter.rule_F. rewrite H120. by case_match.
    - unfold TridentPrinter.rule_A. rewrite H120. by case_match.
    - unfold TridentPrinter.rule_D. destruct (Decoded.alterations p); [|done].
      by apply elem_of_nil in Hltp.
    - unfold TridentPrinter.rule_E. destruct (Decoded.alterations p); [|done].
      by apply elem_of_nil in Hltp.
    - unfold TridentPrinter.rule_G. rewrite H18. by case_match. }
  assert (TridentPrinter.rule_H 330 (Decoded.alterations p) 1 = true) as HH.
  { unfold TridentPrinter.rule_H. apply str_in_spec in Hltp.
    by rewrite Hltp. }
  split_and!; [done | done |].
  unfold TridentPrinter.get_extrusion_letter. rewrite Hlen.
  fold build_size. by rewrite (classify_H_last _ _ _ _ Hsilent), HH.
Qed.

(** The scenario of the specification. *)
Lemma classify_H_after_G_witness :
  TridentPrinter.get_extrusion_letter
    (decode_misumi_name "HFSB5-2020-330-LTP") 1
    (Some (BuildVolume.init 250 250 250 None))
  = Some "H".
Proof.
  change (decode_misumi_name "HFSB5-2020-330-LTP")
    with (Decoded.Part
            {| Decoded.part_number := "HFSB5-2020-330-LTP";
               Decoded.series := "HFSB5";
               Decoded.size := parse_size "2020";
               Decoded.size_raw := "2020";
               Decoded.length := parse_length "330";
               Decoded.length_raw := "330";
               Decoded.alterations := ["LTP"];
               Decoded.alteration_descriptions :=
                 map describe_alteration ["LTP"] |}).
  apply classify_H_after_G; simpl.
  - apply list_elem_of_here.
  - reflexivity.
Defined.

(** The lengths that G asks for, with the same alteration and quantity. *)
Example classify_G_before_H :
  TridentPrinter.get_extrusion_letter
    (decode_misumi_name "HFSB5-2020-232-LTP") 1
    (Some (BuildVolume.init 250 250 250 None)) = Some "G"
  ∧ TridentPrinter.get_extrusion_letter
      (decode_misumi_name "HFSB5-2020-332-LTP") 1
      (Some (BuildVolume.init 350 350 250 None)) = Some "G".
Proof. split; vm_compute; reflexivity. Qed.

(** *** The combined letter of the legacy classifier *)

(** The legacy classifier answers [C/H] exactly for a length of 470 with
    TPW, without AH235, when the build size is none of the three labels. *)
Lemma legacy_classify_combined (build_size : option string) (length : Z)
    (alterations : list string) (quantity : Z) :
  Voron.classify build_size length alterations quantity = Some "C/H"
  ↔ length = 470
    ∧ Py.str_in "TPW" alterations = true
    ∧ Py.str_in "AH235" alterations = false
    ∧ Voron.size_in build_size ["250mm"; "300mm"; "350mm"] = false.
Proof.
  assert (Voron.size_in build_size ["250mm"; "300mm"; "350mm"] = false
          ↔ Voron.size_in build_size ["300mm"] = false
            ∧ Voron.size_in build_size ["250mm"; "350mm"] = false) as ->.
  { destruct build_size as [s|]; [|done]. unfold Voron.size_in, Py.str_in.
    simpl. rewrite !orb_false_r. rewrite !orb_false_iff. tauto. }
  unfold Voron.classify. cbv zeta. split.
  - intros H.
    repeat match type of H with
           | (if ?c then _ else _) = _ =>
               let E := fresh "E" in destruct c eqn:E; [try discriminate H|]
           end; try discriminate H.
    match goal with
    | E : (length =? 470) && _ && negb _ = true |- _ =>
        apply andb_true_iff in E as [[Hlen%Z.eqb_eq Htpw]%andb_true_iff
                                       Hah%negb_true_iff]
    end.
    done.
  - intros (-> & Htpw & Hah & Hs1 & Hs2). rewrite Htpw, Hah, Hs1, Hs2.
    reflexivity.
Qed.

(** C10: the build-volume-aware classifier returns one of the letters A to
    H or [None], never [C/H]; the legacy classifier does return [C/H], and
    does so exactly for a part of length 470 with TPW and without AH235 when
    it is given none of the build sizes 250mm, 300mm, 350mm. *)
Theorem combined_letter_only_legacy (decoded : Decoded.t) (quantity : Z)
    (build_volume : option BuildVolume.t) (build_size : option string) :
  TridentPrinter.get_extrusion_letter decoded quantity build_volume
  ∈ [None; Some "A"; Some "B"; Some "C"; Some "D"; Some "E"; Some "F";
     Some "G"; Some "H"]
  ∧ TridentPrinter.get_extrusion_letter decoded quantity build_volume
    ≠ Some "C/H"
  ∧ (Voron.get_extrusion_letter decoded quantity build_size = Some "C/H"
     ↔ ∃ p, decoded = Decoded.Part p
            ∧ Py.int (Decoded.length_raw p) = Some 470
            ∧ "TPW" ∈ Decoded.alterations p
            ∧ ("AH235" ∉ Decoded.alterations p)
            ∧ (build_size ∉ [Some "250mm"; Some "300mm"; Some "350mm"])).
Proof.
  assert (TridentPrinter.get_extrusion_letter decoded quantity build_volume
          ∈ [None; Some "A"; Some "B"; Some "C"; Some "D"; Some "E";
             Some "F"; Some "G"; Some "H"]) as Hin.
  { unfold TridentPrinter.get_extrusion_letter.
    destruct decoded as [e|p]; [set_solver|].
    destruct (Py.int _); [apply classify_letters | set_solver]. }
  split_and!; [done | |].
  - intros Heq. rewrite Heq in Hin.
    repeat (apply elem_of_cons in Hin as [Hin|Hin]; [discriminate Hin|]).
    by apply elem_of_nil in Hin.
  - assert (Voron.size_in build_size ["250mm"; "300mm"; "350mm"] = false
            ↔ (build_size ∉ [Some "250mm"; Some "300mm"; Some "350mm"]))
      as Hsize.
    { change [Some "250mm"; Some "300mm"; Some "350mm"]
        with (Some <$> ["250mm"; "300mm"; "350mm"]).
      destruct build_size as [s|].
      - unfold Voron.size_in.
        by rewrite <- not_true_iff_false, str_in_spec,
             (list_elem_of_fmap_inj Some).
      - split; [|done].
        intros _ (s & Hs & _)%list_elem_of_fmap. discriminate Hs. }
    unfold Voron.get_extrusion_letter. destruct decoded as [e|p].
    { split; [done|]. intros (p & Hpart & _). discriminate Hpart. }
    destruct (Py.int (Decoded.length_raw p)) as [length|] eqn:Hlen.
    + rewrite legacy_classify_combined, Hsize.
      split.
      * intros (-> & Htpw%str_in_spec & Hah%not_true_iff_false & Hbs).
        exists p. split_and!; try done. by rewrite <- str_in_spec.
      * intros (q & [= <-] & Hint & Htpw & Hah & Hbs).
        rewrite Hlen in Hint. injection Hint as ->.
        split_and!; [done | by apply str_in_spec | | done].
        apply not_true_iff_false. by rewrite str_in_spec.
    + split; [done|]. intros (q & [= <-] & Hint & _). congruence.
Qed.

Lemma combined_letter_only_legacy_witness :
  Voron.get_extrusion_letter (decode_misumi_name "HFSB5-2020-470-TPW") 1 None
  = Some "C/H"
  ∧ TridentPrinter.get_extrusion_letter
      (decode_misumi_name "HFSB5-2020-470-TPW") 1 None
    ≠ Some "C/H".
Proof.
  destruct (combined_letter_only_legacy
              (decode_misumi_name "HFSB5-2020-470-TPW") 1 None None)
    as (_ & Hnot & Hlegacy).
  split; [|exact Hnot]. apply Hlegacy. eexists. split; [reflexivity|].
  simpl. split_and!.
  - reflexivity.
  - apply list_elem_of_here.
  - intros Hin. apply elem_of_cons in Hin as [Hin|Hin]; [discriminate Hin|].
    by apply elem_of_nil in Hin.
  - intros Hin.
    repeat (apply elem_of_cons in Hin as [Hin|Hin]; [discriminate Hin|]).
    by apply elem_of_nil in Hin.
Defined.

Example legacy_470_samples :
  Voron.get_extrusion_letter (decode_misumi_name "HFSB5-2020-470-TPW") 1
    (Some "300mm") = Some "C"
  ∧ Voron.get_extrusion_letter (decode_misumi_name "HFSB5-2020-470-TPW") 1
      (Some "350mm") = Some "H"
  ∧ Voron.get_extrusion_letter
      (decode_misumi_name "HFSB5-2020-470-AH235-TPW") 1 None = Some "F"
  ∧ TridentPrinter.get_extrusion_letter
      (decode_misumi_name "HFSB5-2020-470-TPW") 1 None = None.
Proof. repeat split; vm_compute; reflexivity. Qed.

(** ** Generated specifications fed back into the classifier *)

(** The classifier reads only the integer length and the alterations of a
    part, so any decoded part with those of a specification is classified
    like [decoded_of_spec]. *)
Lemma get_extrusion_letter_by_length (p : Decoded.part) (length quantity : Z)
    (build_volume : option BuildVolume.t) :
  Py.int (Decoded.length_raw p) = Some length →
  TridentPrinter.get_extrusion_letter (Decoded.Part p) quantity build_volume
  = TridentPrinter.classify (TridentPrinter.resolve_build_size build_volume)
      length (Decoded.alterations p) quantity.
Proof.
  intros Hlen. unfold TridentPrinter.get_extrusion_letter. by rewrite Hlen.
Qed.

(** C1 on the code: roles A to E of the three supported build volumes are
    classified as themselves.  Role F is classified as nothing for 250 and
    300 and as C for 350, role G as nothing, and role H as E for 250 and as
    nothing for 300 and 350: the generator gives F the alteration TPW, which
    the rule for F excludes, and gives G and H no LTP, which their rules
    require. *)
Theorem classify_generated_table :
  map classify_generated TridentPrinter.get_supported_build_volumes
  = [ [("A", Some "A"); ("B", Some "B"); ("C", Some "C"); ("D", Some "D");
       ("E", Some "E"); ("F", None); ("G", None); ("H", Some "E")];
      [("A", Some "A"); ("B", Some "B"); ("C", Some "C"); ("D", Some "D");
       ("E", Some "E"); ("F", None); ("G", None); ("H", None)];
      [("A", Some "A"); ("B", Some "B"); ("C", Some "C"); ("D", Some "D");
       ("E", Some "E"); ("F", Some "C"); ("G", None); ("H", None)] ].
Proof. vm_compute. reflexivity. Qed.

(** The same for any decoded part that matches role F of 250x250x250. *)
Example classify_generated_F_250 (p : Decoded.part) :
  Py.int (Decoded.length_raw p) = Some 370 →
  Decoded.alterations p = ["AH235"; "TPW"] →
  TridentPrinter.get_extrusion_letter (Decoded.Part p) 1
    (Some (BuildVolume.init 250 250 250 None)) = None.
Proof.
  intros Hlen Halts.
  rewrite (get_extrusion_letter_by_length _ _ _ _ Hlen), Halts.
  vm_compute. reflexivity.
Qed.

(** * Further properties of the source *)

(** ** Integers and their decimal form *)

Lemma int_digits_of_uint_acc (d : Decimal.uint) (acc : positive) :
  Py.int_digits (Z.pos acc) (NilEmpty.string_of_uint d)
  = Some (Z.pos (Pos.of_uint_acc d acc)).
Proof.
  revert acc. induction d as [|d IH|d IH|d IH|d IH|d IH|d IH|d IH|d IH|d IH|d IH];
    intros acc; [reflexivity|..];
    cbn [NilEmpty.string_of_uint Py.int_digits Pos.of_uint_acc];
    match goal with
    | |- (if Py.is_digit ?c then _ else _) = _ =>
        change (Py.is_digit c) with true; cbv iota;
        let v := eval vm_compute in (Py.digit_val c) in
        change (Py.digit_val c) with v
    end;
    rewrite <- IH; f_equal; lia.
Qed.

Lemma int_digits_of_uint (d : Decimal.uint) :
  Py.int_digits 0 (NilEmpty.string_of_uint d)
  = Some (Z.of_N (Pos.of_uint d)).
Proof.
  induction d as [|d IH|d IH|d IH|d IH|d IH|d IH|d IH|d IH|d IH|d IH];
    [reflexivity | exact IH |..];
    cbn [NilEmpty.string_of_uint Py.int_digits Pos.of_uint];
    match goal with
    | |- (if Py.is_digit ?c then _ else _) = _ =>
        change (Py.is_digit c) with true; cbv iota;
        let v := eval vm_compute in (Py.digit_val c) in
        change (Py.digit_val c) with v
    end;
    apply int_digits_of_uint_acc.
Qed.

Lemma digit_not_space (c : ascii) :
  Py.is_digit c = true → Py.is_space c = false.
Proof.
  unfold Py.is_digit, Py.is_space.
  intros [H1%N.leb_le H2%N.leb_le]%andb_true_iff.
  repeat (apply orb_false_iff; split);
    [apply andb_false_iff; right; apply N.leb_gt; lia
    | apply N.eqb_neq; lia ..].
Qed.

Lemma digit_not_sign (c : ascii) :
  Py.is_digit c = true → Ascii.eqb c "-" = false ∧ Ascii.eqb c "+" = false.
Proof.
  intros Hc. split.
  - destruct (Ascii.eqb_spec c "-") as [->|]; [discriminate Hc | done].
  - destruct (Ascii.eqb_spec c "+") as [->|]; [discriminate Hc | done].
Qed.

(** On a string that starts with a digit, [int] reads the digits from an
    accumulator of zero. *)
Lemma int_unsigned_digits (c : ascii) (s : string) :
  Py.is_digit c = true →
  Py.int_unsigned (String c s) = Py.int_digits 0 (String c s).
Proof. intros Hc. simpl. by rewrite Hc. Qed.

Lemma int_leading_digit (c : ascii) (s : string) :
  Py.is_digit c = true →
  Py.int (String c s) = Py.int_digits 0 (String c s).
Proof.
  intros Hc. unfold Py.int. cbn [Py.lstrip].
  rewrite (digit_not_space _ Hc).
  destruct (digit_not_sign _ Hc) as [-> ->].
  by apply int_unsigned_digits.
Qed.

Lemma string_of_uint_head (d : Decimal.uint) :
  d ≠ Decimal.Nil →
  ∃ c s, NilEmpty.string_of_uint d = String c s ∧ Py.is_digit c = true.
Proof. destruct d; [done | by eexists _, _ ..]. Qed.

Lemma str_pos (p : positive) :
  Py.str (Z.pos p) = NilEmpty.string_of_uint (Pos.to_uint p).
Proof.
  unfold Py.str. simpl. unfold NilZero.string_of_uint.
  pose proof (DecimalPos.Unsigned.to_uint_nonnil p) as Hnil.
  by destruct (Pos.to_uint p).
Qed.

Lemma str_neg (p : positive) :
  Py.str (Z.neg p) = String "-" (Py.str (Z.pos p)).
Proof. reflexivity. Qed.

Lemma int_str_pos (p : positive) :
  Py.int (Py.str (Z.pos p)) = Some (Z.pos p)
  ∧ Py.int_unsigned (Py.str (Z.pos p)) = Some (Z.pos p).
Proof.
  rewrite str_pos.
  destruct (string_of_uint_head (Pos.to_uint p)) as (c & s & Hs & Hc);
    [apply DecimalPos.Unsigned.to_uint_nonnil|].
  rewrite Hs, (int_leading_digit _ _ Hc), (int_unsigned_digits _ _ Hc).
  rewrite <- Hs, int_digits_of_uint, DecimalPos.Unsigned.of_to. done.
Qed.

(** [int(str(n)) == n] for every integer. *)
Lemma int_str (n : Z) : Py.int (Py.str n) = Some n.
Proof.
  destruct n as [|p|p]; [reflexivity | apply int_str_pos |].
  rewrite str_neg. unfold Py.int. cbn [Py.lstrip].
  change (Py.is_space "-") with false. cbv iota.
  change (Ascii.eqb "-" "-") with true. cbv iota.
  by rewrite (proj2 (int_str_pos p)).
Qed.

Lemma str_inj (n m : Z) : Py.str n = Py.str m → n = m.
Proof.
  intros H%(f_equal Py.int). rewrite !int_str in H. by injection H.
Qed.

(** ** [parse_length] *)

Lemma int_digits_mm (s : string) (acc : Z) :
  Py.all_chars Py.is_digit s = true →
  Py.int_digits acc (s +:+ "mm") = None.
Proof.
  revert acc. induction s as [|c s IH]; intros acc; [reflexivity|].
  intros [Hc Hs]%andb_true_iff.
  change (String c s +:+ "mm") with (String c (s +:+ "mm")).
  cbn [Py.int_digits]. rewrite Hc. by apply IH.
Qed.

Lemma int_unsigned_mm (s : string) :
  Py.all_chars Py.is_digit s = true →
  Py.int_unsigned (s +:+ "mm") = None.
Proof.
  destruct s as [|c s]; [reflexivity|].
  intros [Hc Hs]%andb_true_iff.
  change (String c s +:+ "mm") with (String c (s +:+ "mm")).
  cbn [Py.int_unsigned]. rewrite Hc. by apply int_digits_mm.
Qed.

(** A formatted length is no integer any more. *)
Lemma int_str_mm (n : Z) : Py.int (Py.str n +:+ "mm") = None.
Proof.
  destruct n as [|p|p]; [reflexivity | |].
  - pose proof (str_nonneg_digits (Z.pos p) ltac:(lia)) as Hdig.
    destruct (Py.str (Z.pos p)) as [|c s] eqn:Hs; [reflexivity|].
    pose proof Hdig as [Hc _]%andb_true_iff.
    change (String c s +:+ "mm") with (String c (s +:+ "mm")).
    unfold Py.int. cbn [Py.lstrip]. rewrite (digit_not_space _ Hc).
    destruct (digit_not_sign _ Hc) as [-> ->].
    change (String c (s +:+ "mm")) with (String c s +:+ "mm").
    by apply int_unsigned_mm.
  - rewrite str_neg.
    change (String "-" (Py.str (Z.pos p)) +:+ "mm")
      with (String "-" (Py.str (Z.pos p) +:+ "mm")).
    unfold Py.int. cbn [Py.lstrip].
    change (Py.is_space "-") with false. cbv iota.
    change (Ascii.eqb "-" "-") with true. cbv iota.
    by rewrite int_unsigned_mm by (apply str_nonneg_digits; lia).
Qed.

(** X1: [parse_length] of the decimal form of an integer is that decimal
    form followed by [mm]; in particular the length that the encoder writes
    is shown unchanged. *)
Theorem parse_length_str (n : Z) :
  parse_length (Py.str n) = Py.str n +:+ "mm".
Proof. unfold parse_length. by rewrite int_str. Qed.

(** X2: [parse_length] is idempotent: formatting a formatted length
    changes nothing, whether the first pass appended [mm] or passed the
    text through. *)
Theorem parse_length_idempotent (length_str : string) :
  parse_length (parse_length length_str) = parse_length length_str.
Proof.
  unfold parse_length.
  destruct (Py.int length_str) as [n|] eqn:Hint.
  - by rewrite int_str_mm.
  - by rewrite Hint.
Qed.

(** ** Splitting, joining and the two directions of the codec *)

Lemma join_cons (sep : ascii) (c : ascii) (seg : string)
    (segs : list string) :
  Py.join (String sep EmptyString) (String c seg :: segs)
  = String c (Py.join (String sep EmptyString) (seg :: segs)).
Proof. by destruct segs. Qed.

(** [sep.join(s.split(sep)) == s] *)
Lemma join_split (sep : ascii) (s : string) :
  Py.join (String sep EmptyString) (Py.split sep s) = s.
Proof.
  induction s as [|c s IH]; [reflexivity|].
  cbn [Py.split]. destruct (Ascii.eqb_spec c sep) as [->|Hne].
  - pose proof (split_not_nil sep s) as Hnil.
    destruct (Py.split sep s) as [|seg segs]; [done|].
    change (Py.join (String sep EmptyString) (EmptyString :: seg :: segs))
      with (String sep (Py.join (String sep EmptyString) (seg :: segs))).
    by rewrite IH.
  - pose proof (split_not_nil sep s) as Hnil.
    destruct (Py.split sep s) as [|seg segs]; [done|].
    by rewrite join_cons, IH.
Qed.

(** X3: decoding and encoding again gives the part number back: when a
    part number decodes without error and its length segment is the decimal
    form of the integer [n], encoding the decoded series, raw size, [n] and
    alterations yields the original part number. *)
Theorem decode_encode_round_trip (part_number : string) (p : Decoded.part)
    (n : Z) :
  decode_misumi_name part_number = Decoded.Part p →
  Py.str n = Decoded.length_raw p →
  encode_part_number (Decoded.series p) (Decoded.size_raw p) n
    (Some (Decoded.alterations p))
  = part_number.
Proof.
  intros Hdec Hlen. rewrite encode_parts, Hlen. cbn [default].
  etrans; [|apply (join_split "-")].
  unfold decode_misumi_name in Hdec.
  destruct (Py.split "-" part_number) as [|s1 [|s2 [|s3 alts]]];
    try discriminate Hdec.
  by injection Hdec as <-.
Qed.

Lemma decode_encode_round_trip_witness :
  ∃ p, decode_misumi_name "HFSB5-2020-500-LCP-RCP-AV360" = Decoded.Part p
       ∧ encode_part_number (Decoded.series p) (Decoded.size_raw p) 500
           (Some (Decoded.alterations p))
         = "HFSB5-2020-500-LCP-RCP-AV360".
Proof.
  eexists. split; [vm_compute; reflexivity|].
  apply (decode_encode_round_trip "HFSB5-2020-500-LCP-RCP-AV360" _ 500);
    vm_compute; reflexivity.
Defined.

(** The segments of an encoded part number, for hyphen-free fields and a
    length that is not negative. *)
Lemma split_encode (series size : string) (length : Z)
    (alterations : option (list string)) :
  hyphen_free series →
  hyphen_free size →
  0 <= length →
  Forall hyphen_free (default [] alterations) →
  Py.split "-" (encode_part_number series size length alterations)
  = series :: size :: Py.str length :: default [] alterations.
Proof.
  intros Hseries Hsize Hlen Halts. rewrite encode_parts.
  apply (split_join "-"); [done|].
  repeat (apply Forall_cons; split); auto using str_nonneg_no_hyphen.
Qed.

(** X4: the encoder is injective on hyphen-free fields and non-negative
    lengths: two part numbers are equal only if series, size, length and
    alteration tokens are. *)
Theorem encode_part_number_inj (series series' size size' : string)
    (length length' : Z) (alterations alterations' : option (list string)) :
  hyphen_free series → hyphen_free series' →
  hyphen_free size → hyphen_free size' →
  0 <= length → 0 <= length' →
  Forall hyphen_free (default [] alterations) →
  Forall hyphen_free (default [] alterations') →
  encode_part_number series size length alterations
  = encode_part_number series' size' length' alterations' →
  series = series' ∧ size = size' ∧ length = length'
  ∧ default [] alterations = default [] alterations'.
Proof.
  intros Hs Hs' Hz Hz' Hl Hl' Ha Ha' Heq%(f_equal (Py.split "-")).
  rewrite !split_encode in Heq by done.
  injection Heq as -> -> Hlen%str_inj ->. done.
Qed.

Lemma encode_part_number_inj_witness :
  "HFSB5" = "HFSB5" ∧ "2020" = "2020" ∧ 370 = 370
  ∧ default [] (Some ["TPW"]) = default [] (Some ["TPW"]).
Proof.
  apply (encode_part_number_inj "HFSB5" "HFSB5" "2020" "2020" 370 370
           (Some ["TPW"]) (Some ["TPW"]));
    try reflexivity; try lia;
    (apply Forall_cons; split; [reflexivity | apply Forall_nil_2]).
Defined.

(** X5: classifying an encoded part number is classifying its length and
    alterations: for hyphen-free fields and a non-negative length the
    build-volume-aware classifier, run on the decoded encoding, runs its
    rules on exactly the length and the alteration list that were
    encoded. *)
Theorem classify_encoded (series size : string) (length quantity : Z)
    (alterations : option (list string))
    (build_volume : option BuildVolume.t) :
  hyphen_free series →
  hyphen_free size →
  0 <= length →
  Forall hyphen_free (default [] alterations) →
  TridentPrinter.get_extrusion_letter
    (decode_misumi_name
       (encode_part_number series size length alterations))
    quantity build_volume
  = TridentPrinter.classify
      (TridentPrinter.resolve_build_size build_volume) length
      (default [] alterations) quantity.
Proof.
  intros Hseries Hsize Hlen Halts. unfold decode_misumi_name.
  rewrite split_encode by done.
  apply get_extrusion_letter_by_length. cbn [Decoded.length_raw].
  apply int_str.
Qed.

Lemma classify_encoded_witness :
  TridentPrinter.get_extrusion_letter
    (decode_misumi_name
       (encode_part_number "HFSB5" "2020" 370 (Some ["TPW"])))
    9 (Some (BuildVolume.init 250 250 250 None))
  = TridentPrinter.classify (Some "250mm") 370 ["TPW"] 9.
Proof.
  apply (classify_encoded "HFSB5" "2020" 370 9 (Some ["TPW"])
           (Some (BuildVolume.init 250 250 250 None)));
    try reflexivity; try lia.
  apply Forall_cons; split; [reflexivity | apply Forall_nil_2].
Defined.

(** ** What a letter of the classifier guarantees *)

Lemma str_in_false (x : string) (xs : list string) :
  Py.str_in x xs = false ↔ x ∉ xs.
Proof. by rewrite <- not_true_iff_false, str_in_spec. Qed.

Lemma expected_width (build_volume : option BuildVolume.t)
    (length offset : Z) :
  TridentPrinter.expected_and_length
    (TridentPrinter.expected_x
       (TridentPrinter.resolve_build_size build_volume)) length offset
  = true →
  width_plus build_volume length offset.
Proof.
  unfold width_plus, supported_width.
  destruct build_volume as [bv|]; [|done].
  unfold TridentPrinter.resolve_build_size.
  destruct (Z.eqb_spec (BuildVolume.x bv) 250) as [E1|_];
    [|destruct (Z.eqb_spec (BuildVolume.x bv) 300) as [E2|_];
      [|destruct (Z.eqb_spec (BuildVolume.x bv) 350) as [E3|_]; [|done]]];
    intros [_ ->%Z.eqb_eq]%andb_true_iff;
    eexists; (split; [exists bv; split_and!; [done | done |] | reflexivity]);
    auto.
Qed.

Lemma scan_position_codes_true (build_size : option string) (length : Z)
    (position_codes : list string) :
  TridentPrinter.scan_position_codes build_size length position_codes = true →
  TridentPrinter.expected_and_length
    (TridentPrinter.expected_x build_size) length 120 = true
  ∧ ∃ (pos_code : string) (position : Z),
      pos_code ∈ position_codes
      ∧ Py.int (Py.drop 2 pos_code) = Some position
      ∧ Z.abs (position - length `div` 2) <= 5.
Proof.
  induction position_codes as [|c cs IH]; [done|].
  cbn [TridentPrinter.scan_position_codes].
  destruct (Py.int (Py.drop 2 c)) as [position|] eqn:Hint.
  - destruct (TridentPrinter.expected_and_length _ length 120) eqn:Hexp.
    + destruct (Z.leb_spec (Z.abs (position - length `div` 2)) 5) as [Hle|_].
      * intros _. split; [done|]. exists c, position.
        split_and!; [apply list_elem_of_here | done | done].
      * intros (_ & pc & pos & Hin & Hrest)%IH. split; [done|].
        exists pc, pos. split; [by apply list_elem_of_further | done].
    + intros (Hexp' & _)%IH. congruence.
  - intros (Hexp & pc & pos & Hin & Hrest)%IH. split; [done|].
    exists pc, pos. split; [by apply list_elem_of_further | done].
Qed.

Lemma rule_C_true (build_volume : option BuildVolume.t) (length : Z)
    (alterations : list string) (quantity : Z) :
  TridentPrinter.rule_C (TridentPrinter.resolve_build_size build_volume)
    length alterations quantity = true →
  "TPW" ∈ alterations ∧ quantity = 1
  ∧ width_plus build_volume length 120
  ∧ midpoint_hole length alterations.
Proof.
  unfold TridentPrinter.rule_C.
  destruct (Py.str_in "TPW" alterations && (quantity =? 1)) eqn:Hcond;
    [|done].
  apply andb_true_iff in Hcond as [Htpw%str_in_spec Hq%Z.eqb_eq].
  destruct (List.filter _ alterations) as [|c cs] eqn:Hfilter; [done|].
  intros (Hexp%expected_width & pc & pos & Hin & Hint & Habs)
           %scan_position_codes_true.
  split_and!; try done. exists pc, pos. rewrite <- Hfilter in Hin.
  apply list_elem_of_In, filter_In in Hin as [Hin Hstart].
  apply orb_true_iff in Hstart. by rewrite list_elem_of_In.
Qed.

(** X6: every letter the build-volume-aware classifier returns is backed
    by the conditions of its rule: the part decoded without error, its
    length is an integer, and length, alterations, quantity and build volume
    satisfy [letter_condition] for that letter.  So, for instance, D and E
    are only given to parts without alterations, G and H only to parts with
    LTP, and every letter but B and H only for a width of 250, 300 or
    350. *)
Theorem get_extrusion_letter_sound (decoded : Decoded.t) (quantity : Z)
    (build_volume : option BuildVolume.t) (letter : string) :
  TridentPrinter.get_extrusion_letter decoded quantity build_volume
  = Some letter →
  ∃ (p : Decoded.part) (length : Z),
    decoded = Decoded.Part p
    ∧ Py.int (Decoded.length_raw p) = Some length
    ∧ letter_condition build_volume length (Decoded.alterations p)
        quantity letter.
Proof.
  unfold TridentPrinter.get_extrusion_letter.
  destruct decoded as [e|p]; [done|].
  destruct (Py.int (Decoded.length_raw p)) as [length|] eqn:Hint; [|done].
  intros Hletter. exists p, length. split_and!; [done | done |].
  revert Hletter. generalize (Decoded.alterations p). intros alts.
  unfold TridentPrinter.classify, letter_condition.
  destruct (TridentPrinter.rule_B length alts) eqn:HB.
  { intros [= <-]. left. unfold TridentPrinter.rule_B in HB.
    apply andb_true_iff in HB as [[[Hl%Z.eqb_eq H1%str_in_spec]%andb_true_iff
      H2%str_in_spec]%andb_true_iff H3%str_in_spec]. done. }
  destruct (TridentPrinter.rule_C _ length alts quantity) eqn:HC.
  { intros [= <-]. right; left. by apply rule_C_true in HC. }
  destruct (TridentPrinter.rule_F _ length alts quantity) eqn:HF.
  { intros [= <-]. do 2 right; left. unfold TridentPrinter.rule_F in HF.
    destruct (negb (Py.str_in "TPW" alts) && (quantity =? 1)) eqn:Hc;
      [|done].
    apply andb_true_iff in Hc as [Ht%negb_true_iff%str_in_false Hq%Z.eqb_eq].
    destruct (TridentPrinter.expected_and_length _ length 120) eqn:Hexp;
      [|done].
    apply expected_width in Hexp.
    apply orb_true_iff in HF as [H%str_in_spec|H%str_in_spec]; auto 10. }
  destruct (TridentPrinter.rule_A _ length alts) eqn:HA.
  { intros [= <-]. do 3 right; left. unfold TridentPrinter.rule_A in HA.
    destruct (Py.str_in "TPW" alts && _ && _ && _) eqn:Hc; [|done].
    apply andb_true_iff in Hc as [[[H1%str_in_spec
      H2%negb_true_iff%str_in_false]%andb_true_iff
      H3%negb_true_iff%str_in_false]%andb_true_iff
      H4%negb_true_iff%str_in_false].
    apply expected_width in HA. done. }
  destruct (TridentPrinter.rule_D _ length alts quantity) eqn:HD.
  { intros [= <-]. do 4 right; left. unfold TridentPrinter.rule_D in HD.
    destruct alts; [|done]. simpl in HD.
    destruct (Z.eqb_spec quantity 1); [|done].
    apply expected_width in HD. done. }
  destruct (TridentPrinter.rule_E _ length alts quantity) eqn:HE.
  { intros [= <-]. do 5 right; left. unfold TridentPrinter.rule_E in HE.
    destruct alts; [|done]. simpl in HE.
    destruct (Z.eqb_spec quantity 1); [|done].
    apply expected_width in HE. done. }
  destruct (TridentPrinter.rule_G _ length alts quantity) eqn:HG.
  { intros [= <-]. do 6 right; left. unfold TridentPrinter.rule_G in HG.
    destruct (Py.str_in "LTP" alts && (quantity =? 1)) eqn:Hc; [|done].
    apply andb_true_iff in Hc as [H1%str_in_spec Hq%Z.eqb_eq].
    apply expected_width in HG. done. }
  destruct (TridentPrinter.rule_H length alts quantity) eqn:HH; [|done].
  intros [= <-]. do 7 right. unfold TridentPrinter.rule_H in HH.
  destruct (Py.str_in "LTP" alts && (quantity =? 1)) eqn:Hc; [|done].
  apply andb_true_iff in Hc as [H1%str_in_spec Hq%Z.eqb_eq].
  apply Z.eqb_eq in HH. done.
Qed.

Lemma get_extrusion_letter_sound_witness :
  ∃ (p : Decoded.part) (length : Z),
    decode_misumi_name "HFSB5-2020-240" = Decoded.Part p
    ∧ Py.int (Decoded.length_raw p) = Some length
    ∧ letter_condition (Some (BuildVolume.init 250 250 250 None)) length
        (Decoded.alterations p) 1 "D".
Proof.
  apply (get_extrusion_letter_sound (decode_misumi_name "HFSB5-2020-240") 1
           (Some (BuildVolume.init 250 250 250 None)) "D").
  vm_compute. reflexivity.
Defined.

(** ** The two classifiers side by side *)

Lemma trident_classify_B (build_size : option string) (length : Z)
    (alterations : list string) (quantity : Z) :
  TridentPrinter.classify build_size length alterations quantity = Some "B"
  ↔ TridentPrinter.rule_B length alterations = true.
Proof.
  unfold TridentPrinter.classify. split.
  - intros H.
    repeat match type of H with
           | (if ?c then _ else _) = _ =>
               destruct c; [try discriminate H|]
           end; done.
  - by intros ->.
Qed.

Lemma legacy_classify_B (build_size : option string) (length : Z)
    (alterations : list string) (quantity : Z) :
  Voron.classify build_size length alterations quantity = Some "B"
  ↔ TridentPrinter.rule_B length alterations = true.
Proof.
  unfold Voron.classify, TridentPrinter.rule_B. cbv zeta. split.
  - intros H.
    repeat match type of H with
           | (if ?c then _ else _) = _ =>
               destruct c; [try discriminate H|]
           end; done.
  - by intros ->.
Qed.

(** X7: the legacy classifier and the build-volume-aware classifier agree
    on role B: whatever build size or build volume each is given, one
    answers B exactly when the other does. *)
Theorem classifiers_agree_on_B (decoded : Decoded.t) (quantity : Z)
    (build_volume : option BuildVolume.t) (build_size : option string) :
  TridentPrinter.get_extrusion_letter decoded quantity build_volume
  = Some "B"
  ↔ Voron.get_extrusion_letter decoded quantity build_size = Some "B".
Proof.
  unfold TridentPrinter.get_extrusion_letter, Voron.get_extrusion_letter.
  destruct decoded as [e|p]; [done|].
  destruct (Py.int (Decoded.length_raw p)) as [length|]; [|done].
  by rewrite trident_classify_B, legacy_classify_B.
Qed.

Lemma classifiers_agree_on_B_witness :
  Voron.get_extrusion_letter
    (decode_misumi_name "HFSB5-2020-500-LCP-RCP-AV360") 4 None = Some "B".
Proof.
  apply (classifiers_agree_on_B
           (decode_misumi_name "HFSB5-2020-500-LCP-RCP-AV360") 4
           (Some (BuildVolume.init 350 350 250 None)) None).
  vm_compute. reflexivity.
Defined.

(** X8: the legacy classifier looks at its build size only for a length of
    470: for a part of any other length (or one that does not decode, or
    whose length is no integer) the answer is the same for every build
    size. *)
Theorem legacy_build_size_only_at_470 (decoded : Decoded.t) (quantity : Z)
    (build_size build_size' : option string) :
  (∀ p, decoded = Decoded.Part p →
        Py.int (Decoded.length_raw p) ≠ Some 470) →
  Voron.get_extrusion_letter decoded quantity build_size
  = Voron.get_extrusion_letter decoded quantity build_size'.
Proof.
  intros Hlen. unfold Voron.get_extrusion_letter.
  destruct decoded as [e|p]; [done|]. specialize (Hlen p eq_refl).
  destruct (Py.int (Decoded.length_raw p)) as [length|]; [|done].
  assert ((length =? 470) = false) as H470
    by (apply Z.eqb_neq; congruence).
  unfold Voron.classify. cbv zeta. rewrite H470. cbn [andb]. done.
Qed.

Lemma legacy_build_size_only_at_470_witness :
  Voron.get_extrusion_letter (decode_misumi_name "HFSB5-2020-420-TPW") 1
    (Some "250mm")
  = Voron.get_extrusion_letter (decode_misumi_name "HFSB5-2020-420-TPW") 1
      None.
Proof.
  apply (legacy_build_size_only_at_470
           (decode_misumi_name "HFSB5-2020-420-TPW") 1 (Some "250mm") None).
  intros p [= <-]. vm_compute. discriminate.
Defined.

(** ** Supported build volumes *)

(** The loop of [supports_build_volume] finds a listed volume with the
    same three dimensions. *)
Lemma supports_build_volume_spec (supported : list BuildVolume.t)
    (build_volume : BuildVolume.t) :
  PrinterType.supports_build_volume supported build_volume = true
  ↔ ∃ vol, vol ∈ supported
           ∧ BuildVolume.x vol = BuildVolume.x build_volume
           ∧ BuildVolume.y vol = BuildVolume.y build_volume
           ∧ BuildVolume.z vol = BuildVolume.z build_volume.
Proof.
  induction supported as [|v vs IH]; cbn [PrinterType.supports_build_volume].
  - split; [done|]. by intros (vol & ?%elem_of_nil & _).
  - destruct (Z.eqb_spec (BuildVolume.x v) (BuildVolume.x build_volume))
      as [Hx|Hx];
      [destruct (Z.eqb_spec (BuildVolume.y v) (BuildVolume.y build_volume))
         as [Hy|Hy];
       [destruct (Z.eqb_spec (BuildVolume.z v) (BuildVolume.z build_volume))
          as [Hz|Hz]|]|]; cbn [andb].
    1: { split; [|done]. intros _. exists v.
         split; [apply list_elem_of_here | done]. }
    all: rewrite IH; split;
      [ intros (vol & Hin & Hxyz); exists vol;
        split; [by apply list_elem_of_further | done]
      | intros (vol & [->|Hin]%elem_of_cons & Hx' & Hy' & Hz');
        [congruence | by exists vol] ].
Qed.

(** X9: the Trident printer supports a build volume exactly when its three
    dimensions are 250x250x250, 300x300x250 or 350x350x250; the name plays
    no part. *)
Theorem trident_supports_iff (build_volume : BuildVolume.t) :
  trident_supports_build_volume build_volume = true
  ↔ (BuildVolume.x build_volume, BuildVolume.y build_volume,
     BuildVolume.z build_volume)
    ∈ [(250, 250, 250); (300, 300, 250); (350, 350, 250)].
Proof.
  unfold trident_supports_build_volume.
  rewrite supports_build_volume_spec.
  rewrite !elem_of_cons, elem_of_nil. split.
  - intros (vol & Hin & <- & <- & <-).
    unfold TridentPrinter.get_supported_build_volumes in Hin.
    rewrite !elem_of_cons, elem_of_nil in Hin.
    destruct Hin as [->|[->|[->|[]]]]; cbn; auto.
  - intros [Heq|[Heq|[Heq|[]]]]; injection Heq as Hx Hy Hz;
      [exists (BuildVolume.init 250 250 250 (Some "250x250x250"))
      |exists (BuildVolume.init 300 300 250 (Some "300x300x250"))
      |exists (BuildVolume.init 350 350 250 (Some "350x350x250"))];
      (split; [|by cbn]);
      unfold TridentPrinter.get_supported_build_volumes;
      rewrite !elem_of_cons; auto.
Qed.

Lemma trident_supports_iff_witness :
  trident_supports_build_volume
    (BuildVolume.init 350 350 250 (Some "my printer")) = true
  ∧ trident_supports_build_volume (BuildVolume.init 350 350 300 None)
    = false.
Proof.
  split.
  - apply (trident_supports_iff
             (BuildVolume.init 350 350 250 (Some "my printer"))).
    cbn. do 2 apply list_elem_of_further. apply list_elem_of_here.
  - apply not_true_is_false.
    intros H%(trident_supports_iff (BuildVolume.init 350 350 300 None)).
    cbn in H. rewrite !elem_of_cons, elem_of_nil in H.
    destruct H as [[=]|[[=]|[[=]|[]]]].
Defined.

(** X10: every build volume that the Trident printer supports is resolved
    by its classifier, to the label made of the width and [mm]; the
    converse fails, since the classifier reads the width only. *)
Theorem supported_volume_resolved (build_volume : BuildVolume.t) :
  trident_supports_build_volume build_volume = true →
  TridentPrinter.resolve_build_size (Some build_volume)
  = Some (Py.str (BuildVolume.x build_volume) +:+ "mm").
Proof.
  unfold trident_supports_build_volume.
  intros (vol & Hin & Hx & _)%supports_build_volume_spec.
  unfold TridentPrinter.resolve_build_size. rewrite <- Hx.
  unfold TridentPrinter.get_supported_build_volumes in Hin.
  rewrite !elem_of_cons, elem_of_nil in Hin.
  destruct Hin as [-> | [-> | [-> | []]]]; reflexivity.
Qed.

Lemma supported_volume_resolved_witness :
  TridentPrinter.resolve_build_size
    (Some (BuildVolume.init 300 300 250 None)) = Some "300mm"
  ∧ trident_supports_build_volume (BuildVolume.init 300 1 1 None) = false
  ∧ TridentPrinter.resolve_build_size
      (Some (BuildVolume.init 300 1 1 None)) = Some "300mm".
Proof.
  split; [|split; reflexivity].
  apply (supported_volume_resolved (BuildVolume.init 300 300 250 None)).
  reflexivity.
Defined.

(** ** The build size of a bill of materials *)

(** What [detect_build_size] does with one part. *)
Lemma detect_build_size_cons (part : BomPart.t) (rest : list BomPart.t) :
  (∃ length label, part_length part length
                   ∧ (length, label) ∈ SIZE_OF_LENGTH
                   ∧ detect_build_size (part :: rest) = Some label)
  ∨ ((∀ length label, part_length part length →
                      (length, label) ∉ SIZE_OF_LENGTH)
     ∧ detect_build_size (part :: rest) = detect_build_size rest).
Proof.
  cbn [detect_build_size]. unfold part_length, SIZE_OF_LENGTH.
  destruct (decode_misumi_name (BomPart.part_number part)) as [e|p] eqn:Hdec.
  { right. split; [|done]. by intros ?? (q & [=] & _). }
  destruct (Py.int (Decoded.length_raw p)) as [length|] eqn:Hint.
  2: { right. split; [|done]. intros ?? (q & [= <-] & Hq). congruence. }
  destruct (Z.eqb_spec length 340) as [->|H340].
  { left. exists 340, "350mm". split_and!; [by exists p | | done].
    apply list_elem_of_here. }
  destruct (Z.eqb_spec length 290) as [->|H290].
  { left. exists 290, "300mm". split_and!; [by exists p | | done].
    apply list_elem_of_further, list_elem_of_here. }
  destruct (Z.eqb_spec length 240) as [->|H240].
  { left. exists 240, "250mm". split_and!; [by exists p | | done].
    do 2 apply list_elem_of_further. apply list_elem_of_here. }
  right. split; [|done]. intros len label (q & [= <-] & Hq).
  rewrite Hint in Hq. injection Hq as <-.
  rewrite !elem_of_cons, elem_of_nil.
  intros [[= ? _]|[[= ? _]|[[= ? _]|[]]]]; done.
Qed.

(** X11: [detect_build_size] answers with the first part that has one of
    the three lengths: a build size found in the first part of a list stands,
    and otherwise the rest of the list decides. *)
Theorem detect_build_size_app (parts parts' : list BomPart.t) :
  detect_build_size (parts ++ parts')
  = match detect_build_size parts with
    | Some build_size => Some build_size
    | None => detect_build_size parts'
    end.
Proof.
  induction parts as [|part rest IH]; [done|].
  change ((part :: rest) ++ parts') with (part :: (rest ++ parts')).
  cbn [detect_build_size].
  destruct (decode_misumi_name (BomPart.part_number part)) as [e|p];
    [done|].
  destruct (Py.int (Decoded.length_raw p)) as [length|]; [|done].
  by repeat case_match.
Qed.

(** Nothing is detected when no part has one of the three lengths. *)
Lemma detect_build_size_none (parts : list BomPart.t) :
  (∀ part length label, part ∈ parts → part_length part length →
                        (length, label) ∉ SIZE_OF_LENGTH) →
  detect_build_size parts = None.
Proof.
  induction parts as [|part rest IH]; [done|]. intros Hall.
  destruct (detect_build_size_cons part rest)
    as [(len & label & Hlen & Hin & _)|[_ ->]].
  - destruct (Hall part len label (list_elem_of_here _ _) Hlen Hin).
  - apply IH. intros p len label Hp. apply Hall.
    by apply list_elem_of_further.
Qed.

(** X12: a detected build size comes from a part of the list: when
    [detect_build_size] returns a build size, some part decodes to the
    integer length 340, 290 or 240 that goes with it; and it returns [None]
    exactly when no part decodes to one of these lengths. *)
Theorem detect_build_size_sound (parts : list BomPart.t) :
  (∀ build_size, detect_build_size parts = Some build_size →
     ∃ part length, part ∈ parts ∧ part_length part length
                    ∧ (length, build_size) ∈ SIZE_OF_LENGTH)
  ∧ (detect_build_size parts = None
     ↔ ∀ part length label, part ∈ parts → part_length part length →
                            (length, label) ∉ SIZE_OF_LENGTH).
Proof.
  induction parts as [|part rest [IHs IHn]].
  - split; [done|]. split; [|done]. by intros _ ??? ?%elem_of_nil.
  - destruct (detect_build_size_cons part rest)
      as [(len & label & Hlen & Hin & Hdet)|[Hnone Hdet]]; rewrite Hdet.
    + split.
      * intros ? [= <-]. exists part, len.
        split; [apply list_elem_of_here | done].
      * split; [done|]. intros Hall.
        destruct (Hall part len label (list_elem_of_here _ _) Hlen Hin).
    + split.
      * intros bs (p & len & Hp & Hrest)%IHs. exists p, len.
        split; [by apply list_elem_of_further | done].
      * rewrite IHn. split.
        -- intros Hall p len label [->|Hp]%elem_of_cons; eauto.
        -- intros Hall p len label Hp. apply Hall.
           by apply list_elem_of_further.
Qed.

Lemma detect_build_size_sound_witness :
  ∃ part length,
    part ∈ [BomPart.Build "HFSB5-2020-500-LCP-RCP-AV360" "4" "";
            BomPart.Build "HFSB5-2020-290" "1" ""]
    ∧ part_length part length
    ∧ (length, "300mm") ∈ SIZE_OF_LENGTH.
Proof.
  apply (detect_build_size_sound
           [BomPart.Build "HFSB5-2020-500-LCP-RCP-AV360" "4" "";
            BomPart.Build "HFSB5-2020-290" "1" ""]).
  vm_compute. reflexivity.
Defined.

Lemma detect_build_size_range (parts : list BomPart.t) :
  detect_build_size parts
  ∈ [None; Some "250mm"; Some "300mm"; Some "350mm"].
Proof.
  induction parts as [|part rest IH]; [apply list_elem_of_here|].
  cbn [detect_build_size]. repeat case_match; try done;
    rewrite !elem_of_cons; auto.
Qed.

(** X13: the build volume that the BOM formatter hands to the classifier
    is resolved to exactly the detected build size, and it is a supported
    build volume whenever a build size was detected. *)
Theorem bom_build_volume_detected (parts : list BomPart.t) :
  TridentPrinter.resolve_build_size
    (bom_build_volume (detect_build_size parts))
  = detect_build_size parts
  ∧ (∀ bv, bom_build_volume (detect_build_size parts) = Some bv →
           trident_supports_build_volume bv = true)
  ∧ (bom_build_volume (detect_build_size parts) = None
     ↔ detect_build_size parts = None).
Proof.
  pose proof (detect_build_size_range parts) as Hrange.
  rewrite !elem_of_cons, elem_of_nil in Hrange.
  destruct Hrange as [->|[->|[->|[->|[]]]]];
    (split_and!; [reflexivity | by intros bv [= <-] | done]).
Qed.

Lemma bom_build_volume_detected_witness :
  trident_supports_build_volume (BuildVolume.init 300 300 250 None) = true.
Proof.
  apply (bom_build_volume_detected
           [BomPart.Build "HFSB5-2020-500-LCP-RCP-AV360" "4" "";
            BomPart.Build "HFSB5-2020-290" "1" ""]).
  vm_compute. reflexivity.
Defined.

(** X14: the frame that the generator produces for a width of 250, 300 or
    350, written as part numbers by the encoder, is detected as that build
    size. *)
Theorem detect_build_size_generated (build_volume : BuildVolume.t) :
  BuildVolume.x build_volume ∈ [250; 300; 350] →
  detect_build_size (encoded_specs build_volume)
  = TridentPrinter.resolve_build_size (Some build_volume)
  ∧ is_Some (detect_build_size (encoded_specs build_volume)).
Proof.
  destruct build_volume as [x y z name]. cbn [BuildVolume.x].
  rewrite !elem_of_cons, elem_of_nil.
  intros [->|[->|[->|[]]]]; (split; [vm_compute; reflexivity|]);
    eexists; vm_compute; reflexivity.
Qed.

Lemma detect_build_size_generated_witness :
  detect_build_size (encoded_specs (BuildVolume.init 350 350 250 None))
  = Some "350mm".
Proof.
  apply (detect_build_size_generated (BuildVolume.init 350 350 250 None)).
  cbn. do 2 apply list_elem_of_further. apply list_elem_of_here.
Defined.

(** The detection goes by length alone: a frame of width 220 has rails of
    length 340 and is taken for a 350 build. *)
Example detect_build_size_other_width :
  detect_build_size (encoded_specs (BuildVolume.init 220 220 250 None))
  = Some "350mm".
Proof. vm_compute. reflexivity. Qed.

(** X15: when no part of a BOM has the length 340, 290 or 240, no build
    size is detected and every row is designated B, H or nothing: none of
    the letters that depend on the width is given. *)
Theorem bom_letter_without_build_size (parts : list BomPart.t)
    (part : BomPart.t) :
  (∀ part length label, part ∈ parts → part_length part length →
                        (length, label) ∉ SIZE_OF_LENGTH) →
  detect_build_size parts = None
  ∧ bom_letter (detect_build_size parts) part
    ∈ [Some "B"; Some "H"; None].
Proof.
  intros Hnone%detect_build_size_none. split; [done|]. rewrite Hnone.
  unfold bom_letter, TridentPrinter.get_extrusion_letter.
  destruct (decode_misumi_name _) as [e|p];
    [do 2 apply list_elem_of_further; apply list_elem_of_here|].
  destruct (Py.int _) as [length|];
    [|do 2 apply list_elem_of_further; apply list_elem_of_here].
  cbn [bom_build_volume TridentPrinter.resolve_build_size].
  rewrite classify_unresolved. repeat case_match;
    rewrite !elem_of_cons; auto.
Qed.

Lemma bom_letter_without_build_size_witness :
  bom_letter
    (detect_build_size [BomPart.Build "HFSB5-2020-370-TPW" "9" ""])
    (BomPart.Build "HFSB5-2020-370-TPW" "9" "")
  ∈ [Some "B"; Some "H"; None].
Proof.
  apply (bom_letter_without_build_size
           [BomPart.Build "HFSB5-2020-370-TPW" "9" ""]
           (BomPart.Build "HFSB5-2020-370-TPW" "9" "")).
  intros part length label ->%list_elem_of_singleton (p & Hdec & Hint).
  vm_compute in Hdec. injection Hdec as <-. vm_compute in Hint.
  injection Hint as <-. unfold SIZE_OF_LENGTH.
  rewrite !elem_of_cons, elem_of_nil.
  intros [[=]|[[=]|[[=]|[]]]].
Defined.

(** ** The description of a part number *)

(** X16: a part number with fewer than three segments is described by the
    single line [Error: Invalid part number format. ...] that ends with the
    part number itself. *)
Theorem format_description_too_few_segments (part_number : string) :
  (length (Py.split "-" part_number) < 3)%nat →
  format_description (decode_misumi_name part_number)
  = "Error: Invalid part number format. Expected at least 3 parts separated by hyphens, got: "
    +:+ part_number.
Proof.
  unfold decode_misumi_name.
  destruct (Py.split "-" part_number) as [|s1 [|s2 [|s3 alts]]];
    cbn [length]; intros Hlen; try reflexivity. lia.
Qed.

Lemma format_description_too_few_segments_witness :
  format_description (decode_misumi_name "HFSB5-2020")
  = "Error: Invalid part number format. Expected at least 3 parts separated by hyphens, got: HFSB5-2020".
Proof.
  apply (format_description_too_few_segments "HFSB5-2020"). cbn. lia.
Defined.

(** X17: a part number that decodes is described by two lines more than it
    has segments: the heading with the part number itself, series, size and
    length, and then either the line [Alterations: None] or the line
    [Alterations:] and one line per alteration segment. *)
Theorem format_description_line_count (part_number : string)
    (p : Decoded.part) :
  decode_misumi_name part_number = Decoded.Part p →
  format_description (decode_misumi_name part_number)
  = Py.join (String line_feed EmptyString) (format_description_lines p)
  ∧ length (format_description_lines p)
    = (length (Py.split "-" part_number) + 2)%nat
  ∧ format_description_lines p !! 0%nat
    = Some ("MISUMI Extrusion: " +:+ part_number).
Proof.
  intros Hdec. rewrite Hdec. split; [reflexivity|].
  unfold decode_misumi_name in Hdec.
  destruct (Py.split "-" part_number) as [|s1 [|s2 [|s3 alts]]];
    try discriminate Hdec.
  injection Hdec as <-. unfold format_description_lines.
  cbn [Decoded.alterations Decoded.alteration_descriptions
       Decoded.part_number].
  split; [|reflexivity].
  destruct alts as [|a alts]; [reflexivity|].
  cbn [length app]. rewrite !length_map. cbn [length]. lia.
Qed.

Lemma format_description_line_count_witness :
  ∃ p, decode_misumi_name "HFSB5-2020-500-LCP-RCP-AV360" = Decoded.Part p
       ∧ length (format_description_lines p) = 8%nat.
Proof.
  eexists. split; [vm_compute; reflexivity|].
  apply (format_description_line_count "HFSB5-2020-500-LCP-RCP-AV360").
  vm_compute. reflexivity.
Defined.

(** ** When the classifier answers a letter *)

Lemma width_expected (build_volume : option BuildVolume.t)
    (length offset : Z) :
  width_plus build_volume length offset →
  TridentPrinter.expected_and_length
    (TridentPrinter.expected_x
       (TridentPrinter.resolve_build_size build_volume)) length offset
  = true.
Proof.
  intros (X & (bv & -> & HX & Hsup) & ->).
  unfold TridentPrinter.resolve_build_size. rewrite HX.
  destruct Hsup as [-> | [-> | ->]]; cbn; by rewrite Z.eqb_refl.
Qed.

Lemma width_other_offset (build_volume : option BuildVolume.t)
    (length offset offset' : Z) :
  width_plus build_volume length offset →
  offset ≠ offset' →
  TridentPrinter.expected_and_length
    (TridentPrinter.expected_x
       (TridentPrinter.resolve_build_size build_volume)) length offset'
  = false.
Proof.
  intros (X & (bv & -> & HX & _) & ->) Hne. apply not_true_is_false.
  intros (X' & (bv' & [= <-] & HX' & _) & Heq)%expected_width. lia.
Qed.

Lemma width_not_500 (build_volume : option BuildVolume.t)
    (length offset : Z) (alterations : list string) :
  width_plus build_volume length offset →
  offset ∈ [120; -10; 80; -18] →
  TridentPrinter.rule_B length alterations = false.
Proof.
  intros (X & (bv & _ & _ & HX) & ->) Hoff.
  unfold TridentPrinter.rule_B.
  rewrite !elem_of_cons, elem_of_nil in Hoff.
  assert ((X + offset =? 500) = false) as -> by (apply Z.eqb_neq; lia).
  done.
Qed.

Lemma scan_position_codes_found (build_size : option string) (length : Z)
    (position_codes : list string) (pos_code : string) (position : Z) :
  TridentPrinter.expected_and_length
    (TridentPrinter.expected_x build_size) length 120 = true →
  pos_code ∈ position_codes →
  Py.int (Py.drop 2 pos_code) = Some position →
  Z.abs (position - length `div` 2) <= 5 →
  TridentPrinter.scan_position_codes build_size length position_codes = true.
Proof.
  intros Hexp Hin Hint Habs.
  induction position_codes as [|c cs IH]; [by apply elem_of_nil in Hin|].
  cbn [TridentPrinter.scan_position_codes]. rewrite Hexp.
  apply elem_of_cons in Hin as [<-|Hin].
  - rewrite Hint. by apply Z.leb_le in Habs as ->.
  - rewrite (IH Hin). by repeat case_match.
Qed.

Lemma rule_C_found (build_volume : option BuildVolume.t) (length : Z)
    (alterations : list string) :
  "TPW" ∈ alterations →
  width_plus build_volume length 120 →
  midpoint_hole length alterations →
  TridentPrinter.rule_C (TridentPrinter.resolve_build_size build_volume)
    length alterations 1 = true.
Proof.
  intros Htpw%str_in_spec Hw%width_expected
    (pos_code & position & Hin & Hstart & Hint & Habs).
  unfold TridentPrinter.rule_C. rewrite Htpw. cbn [andb Z.eqb Pos.eqb].
  assert (pos_code
          ∈ List.filter
              (λ alt, Py.startswith "AV" alt || Py.startswith "AH" alt)
              alterations) as Hfilter.
  { apply list_elem_of_In, filter_In. split; [by apply list_elem_of_In|].
    by apply orb_true_iff. }
  destruct (List.filter _ alterations) as [|c cs] eqn:Hf;
    [by apply elem_of_nil in Hfilter|].
  by apply (scan_position_codes_found _ _ _ pos_code position).
Qed.

(** X18: the conditions of a rule are also enough: when a part decodes to
    an integer length and length, alterations, quantity and build volume
    satisfy [letter_condition] for a letter, the classifier answers that
    letter.  The only proviso is for A, which yields to C: the part must not
    have quantity 1 together with a hole at its midpoint. *)
Theorem get_extrusion_letter_complete (p : Decoded.part) (length quantity : Z)
    (build_volume : option BuildVolume.t) (letter : string) :
  Py.int (Decoded.length_raw p) = Some length →
  letter_condition build_volume length (Decoded.alterations p) quantity
    letter →
  (letter = "A" →
   ¬ (quantity = 1 ∧ midpoint_hole length (Decoded.alterations p))) →
  TridentPrinter.get_extrusion_letter (Decoded.Part p) quantity build_volume
  = Some letter.
Proof.
  intros Hint Hcond HA.
  rewrite (get_extrusion_letter_by_length _ _ _ _ Hint).
  revert Hcond HA. generalize (Decoded.alterations p). intros alts.
  unfold letter_condition, TridentPrinter.classify.
  intros [(-> & -> & H1 & H2 & H3)
         |[(-> & Htpw & -> & Hw & Hmid)
         |[(-> & Htpw & -> & Hw & Hah)
         |[(-> & Htpw & H235 & Hv235 & H185 & Hw)
         |[(-> & -> & -> & Hw)
         |[(-> & -> & -> & Hw)
         |[(-> & Hltp & -> & Hw)
         |(-> & Hltp & -> & ->)]]]]]]] HA.
  - unfold TridentPrinter.rule_B.
    apply str_in_spec in H1, H2, H3. by rewrite H1, H2, H3.
  - rewrite (width_not_500 _ _ _ _ Hw)
      by (rewrite !elem_of_cons; auto).
    by rewrite rule_C_found.
  - rewrite (width_not_500 _ _ _ _ Hw)
      by (rewrite !elem_of_cons; auto).
    apply str_in_false in Htpw.
    unfold TridentPrinter.rule_C, TridentPrinter.rule_F. rewrite Htpw.
    cbn [andb negb Z.eqb Pos.eqb].
    rewrite (width_expected _ _ _ Hw).
    destruct Hah as [H%str_in_spec|H%str_in_spec]; rewrite H;
      by rewrite ?orb_true_r.
  - rewrite (width_not_500 _ _ _ _ Hw)
      by (rewrite !elem_of_cons; auto).
    destruct (TridentPrinter.rule_C _ length alts quantity) eqn:HC.
    { apply rule_C_true in HC as (_ & Hq & _ & Hmid).
      destruct (HA eq_refl). done. }
    apply str_in_spec in Htpw. apply str_in_false in H235, Hv235, H185.
    unfold TridentPrinter.rule_F, TridentPrinter.rule_A.
    rewrite Htpw, H235, Hv235, H185. cbn [andb negb].
    by rewrite (width_expected _ _ _ Hw).
  - rewrite (width_not_500 _ _ _ _ Hw)
      by (rewrite !elem_of_cons; auto).
    unfold TridentPrinter.rule_C, TridentPrinter.rule_F,
      TridentPrinter.rule_A, TridentPrinter.rule_D.
    cbn [Py.str_in existsb andb negb Z.eqb Pos.eqb
         TridentPrinter.no_alterations].
    rewrite (width_other_offset _ _ _ 120 Hw) by done.
    by rewrite (width_expected _ _ _ Hw).
  - rewrite (width_not_500 _ _ _ _ Hw)
      by (rewrite !elem_of_cons; auto).
    unfold TridentPrinter.rule_C, TridentPrinter.rule_F,
      TridentPrinter.rule_A, TridentPrinter.rule_D, TridentPrinter.rule_E.
    cbn [Py.str_in existsb andb negb Z.eqb Pos.eqb
         TridentPrinter.no_alterations].
    rewrite (width_other_offset _ _ _ 120 Hw) by done.
    rewrite (width_other_offset _ _ _ (-10) Hw) by done.
    by rewrite (width_expected _ _ _ Hw).
  - rewrite (width_not_500 _ _ _ _ Hw)
      by (rewrite !elem_of_cons; auto).
    pose proof (width_other_offset _ _ _ 120 Hw ltac:(done)) as H120.
    rewrite rule_C_false by done.
    unfold TridentPrinter.rule_F, TridentPrinter.rule_A,
      TridentPrinter.rule_D, TridentPrinter.rule_E, TridentPrinter.rule_G.
    rewrite H120.
    assert (TridentPrinter.no_alterations alts = false) as ->.
    { destruct alts; [by apply elem_of_nil in Hltp | done]. }
    apply str_in_spec in Hltp. rewrite Hltp.
    cbn [andb Z.eqb Pos.eqb].
    rewrite (width_expected _ _ _ Hw). by repeat case_match.
  - pose proof (expected_and_length_330
                  (TridentPrinter.resolve_build_size build_volume) 120
                  (or_introl eq_refl)) as H120.
    pose proof (expected_and_length_330
                  (TridentPrinter.resolve_build_size build_volume) (-18)
                  (or_intror eq_refl)) as H18.
    rewrite rule_C_false by done.
    unfold TridentPrinter.rule_B, TridentPrinter.rule_F,
      TridentPrinter.rule_A, TridentPrinter.rule_D, TridentPrinter.rule_E,
      TridentPrinter.rule_G, TridentPrinter.rule_H.
    rewrite H120, H18.
    assert (TridentPrinter.no_alterations alts = false) as ->.
    { destruct alts; [by apply elem_of_nil in Hltp | done]. }
    apply str_in_spec in Hltp. rewrite Hltp.
    cbn [andb Z.eqb Pos.eqb]. by repeat case_match.
Qed.

Lemma get_extrusion_letter_complete_witness :
  TridentPrinter.get_extrusion_letter
    (decode_misumi_name "HFSB5-2020-232-LTP") 1
    (Some (BuildVolume.init 250 250 250 None))
  = Some "G".
Proof.
  change (decode_misumi_name "HFSB5-2020-232-LTP")
    with (Decoded.Part
            (Decoded.Build "HFSB5-2020-232-LTP" "HFSB5" (parse_size "2020")
               "2020" (parse_length "232") "232" ["LTP"]
               (map describe_alteration ["LTP"]))).
  apply (get_extrusion_letter_complete _ 232); [reflexivity | | done].
  unfold letter_condition. do 6 right. left.
  split_and!; [done | apply list_elem_of_here | done |].
  exists 250. split; [|reflexivity].
  eexists. split_and!; [reflexivity | reflexivity | auto].
Defined.

(** ** Qualifiers in the decoded descriptions *)

Lemma append_not_empty_r (s t : string) :
  Py.is_empty t = false → Py.is_empty (s +:+ t) = false.
Proof. intros Ht. by destruct s. Qed.

Lemma append_not_empty_l (s t : string) :
  Py.is_empty s = false → Py.is_empty (s +:+ t) = false.
Proof. intros Hs. by destruct s. Qed.

(** X19: a qualifier is never dropped: whenever [parse_alteration_code]
    returns a qualifier, the qualifier is not empty, so the description that
    [decode_misumi_name] stores for the token is the description followed by
    the qualifier in parentheses. *)
Theorem describe_alteration_qualifier (alt_code desc value : string) :
  parse_alteration_code alt_code = (desc, Some value) →
  Py.is_empty value = false
  ∧ describe_alteration alt_code = desc +:+ " (" +:+ value +:+ ")".
Proof.
  intros Hparse.
  assert (Py.is_empty value = false) as Hvalue.
  { revert Hparse. unfold parse_alteration_code.
    assert (parse_unmatched alt_code = (desc, Some value) →
            Py.is_empty value = false) as Hun.
    { unfold parse_unmatched.
      destruct (match_letters_digits alt_code) as [[b d]|] eqn:Hm; [|done].
      apply match_letters_digits_spec in Hm as (_ & _ & _ & Hd & _).
      unfold parse_suffixed.
      repeat case_match; intros [= <- <-];
        eauto using append_not_empty_l, append_not_empty_r. }
    repeat case_match; try done. }
  split; [done|]. unfold describe_alteration. by rewrite Hparse, Hvalue.
Qed.

Lemma describe_alteration_qualifier_witness :
  describe_alteration "AV360"
  = "Wrench Hole in Specified Position (Vertical, A position) (360mm from left end)".
Proof.
  apply (describe_alteration_qualifier "AV360"
           "Wrench Hole in Specified Position (Vertical, A position)"
           "360mm from left end").
  vm_compute. reflexivity.
Defined.
